(** * jira-pr-check: a shallow embedding of [src/main.py] and its properties.

    The Python module has three parts that matter here:
    - the issue-key extractor [get_jira_issue_from_branch_name], a call to
      [regex.findall] with one fixed pattern, embedded below as a backtracking
      matcher written for exactly that pattern;
    - the signature verifier [check_payload_secret] and the tracker check
      [is_jira_issue], which call external libraries (hmac, the Jira client);
    - the HTTP handler [jira_github_pr_check], whose try/except control flow
      and in-place mutation of the [github_commit_status] dict are modelled
      with a small state-and-exception monad. *)

From Stdlib Require Import List Bool Arith Lia String Ascii NArith ZArith Strings.Byte.
Import ListNotations.
Open Scope bool_scope.

(* ------------------------------------------------------------------------ *)
(** ** Issue-key extraction: [get_jira_issue_from_branch_name]

    Pattern of the source:
      [(?<= |-|_|^)([0-9A-Z][A-Za-z]{1,10}-[0-9]+)(?= |-|_|$)]
    A Python [str] is modelled as a list of characters; every character the
    pattern inspects is ASCII, so [ascii] loses nothing the pattern sees. *)

Module Extract.

Definition in_range (lo hi c : ascii) : bool :=
  (nat_of_ascii lo <=? nat_of_ascii c) && (nat_of_ascii c <=? nat_of_ascii hi).

(** [0-9] *)
Definition is_digit (c : ascii) : bool := in_range "0" "9" c.
(** [A-Z] *)
Definition is_upper (c : ascii) : bool := in_range "A" "Z" c.
(** [A-Za-z] *)
Definition is_alpha (c : ascii) : bool := is_upper c || in_range "a" "z" c.
(** [0-9A-Z], the first character of the group *)
Definition is_first (c : ascii) : bool := is_digit c || is_upper c.

(** The three literal alternatives [" "], ["-"], ["_"] of both lookarounds. *)
Definition is_sep (c : ascii) : bool :=
  Ascii.eqb c " " || Ascii.eqb c "-" || Ascii.eqb c "_".

(** [(?<= |-|_|^)]: [prev] is the character before the current position,
    [None] at the start of the string, where [^] holds (no MULTILINE flag). *)
Definition lookbehind (prev : option ascii) : bool :=
  match prev with
  | None => true
  | Some c => is_sep c
  end.

(** [(?= |-|_|$)]: without MULTILINE, [$] holds at the end of the string and
    just before a newline that ends the string. *)
Definition lookahead (rest : list ascii) : bool :=
  match rest with
  | [] => true
  | c :: r =>
      is_sep c || (Ascii.eqb c "010"%char && match r with [] => true | _ => false end)
  end.

(** Length of the longest prefix of [l] in the class [p]. *)
Fixpoint run (p : ascii -> bool) (l : list ascii) : nat :=
  match l with
  | [] => 0
  | c :: r => if p c then S (run p r) else 0
  end.

(** Backtracking of a greedy quantifier: try [n], [n-1], ..., [lo] repetitions
    and keep the first count for which the continuation succeeds. *)
Fixpoint try_down (lo n : nat) (k : nat -> option nat) : option nat :=
  if n <? lo then None
  else match k n with
       | Some e => Some e
       | None => match n with O => None | S m => try_down lo m k end
       end.

(** [p{lo,hi}] followed by the continuation [k]; the result is the number of
    characters consumed by the quantifier and the continuation together. *)
Definition greedy (p : ascii -> bool) (lo hi : nat) (l : list ascii)
    (k : list ascii -> option nat) : option nat :=
  try_down lo (Nat.min hi (run p l))
    (fun n => option_map (Nat.add n) (k (skipn n l))).

(** The group [[0-9A-Z][A-Za-z]{1,10}-[0-9]+] followed by the lookahead;
    [Some n] when it matches the first [n] characters of [l]. *)
Definition match_key (l : list ascii) : option nat :=
  match l with
  | [] => None
  | c :: r =>
      if is_first c then
        option_map S
          (greedy is_alpha 1 10 r (fun r1 =>
             match r1 with
             | d :: r2 =>
                 if Ascii.eqb d "-" then
                   option_map S
                     (greedy is_digit 1 (List.length r2) r2 (fun r3 =>
                        if lookahead r3 then Some 0 else None))
                 else None
             | [] => None
             end))
      else None
  end.

(** One match attempt at the current position. *)
Definition match_at (prev : option ascii) (l : list ascii) : option nat :=
  if lookbehind prev then match_key l else None.

(** [regex.findall]: scan the positions from left to right; after a match the
    scan resumes at its end (the last matched character becomes the previous
    one; a match has at least three characters, so the default of [last] is
    never used), otherwise at the next position. The single capturing group spans
    the whole match (the lookarounds are zero-width), so findall returns the
    matched texts. *)
Fixpoint findall_from (fuel : nat) (prev : option ascii) (l : list ascii)
    : list (list ascii) :=
  match fuel with
  | O => []
  | S f =>
      match match_at prev l with
      | Some n =>
          firstn n l :: findall_from f (Some (last (firstn n l) " "%char)) (skipn n l)
      | None =>
          match l with
          | [] => []
          | c :: r => findall_from f (Some c) r
          end
      end
  end.

Definition findall (l : list ascii) : list (list ascii) :=
  findall_from (S (List.length l)) None l.

(** [return match[0] if len(match) > 0 else None] *)
Definition get_jira_issue_from_branch_name (branch_name : string) : option string :=
  match findall (list_ascii_of_string branch_name) with
  | m :: _ => Some (string_of_list_ascii m)
  | [] => None
  end.

(** *** The matches, as the amended claims describe them

    A second, independent description of an issue key at a position, in the
    words of the (amended) claims: the character class of the first
    character, the letter count, the hyphen, the digits, and the boundaries
    on each side. *)

(** The boundary characters: a space, a hyphen or an underscore. *)
Definition sep_char (c : ascii) : Prop := c = " "%char \/ c = "-"%char \/ c = "_"%char.

(** Left boundary: the start of the string or a boundary character. *)
Definition left_bounded (prev : option ascii) : Prop :=
  prev = None \/ exists c, prev = Some c /\ sep_char c.

(** Right boundary: the end of the string, a boundary character, or a
    newline that is the last character of the string. *)
Definition right_bounded (rest : list ascii) : Prop :=
  rest = [] \/ (exists c r, rest = c :: r /\ sep_char c) \/ rest = ["010"%char].

(** [m] has the shape [[0-9A-Z][A-Za-z]{1,10}-[0-9]+]. *)
Definition key_shape (m : list ascii) : Prop :=
  exists c letters digits,
    m = c :: letters ++ "-"%char :: digits /\
    is_first c = true /\
    1 <= List.length letters <= 10 /\ forallb is_alpha letters = true /\
    digits <> [] /\ forallb is_digit digits = true.

(** [m] is a bounded key at the front of [l], [prev] being the character
    before [l]. *)
Definition bounded_key (prev : option ascii) (l m : list ascii) : Prop :=
  left_bounded prev /\ key_shape m /\
  exists rest, l = m ++ rest /\ right_bounded rest.

(** The character before position [i] of [l], given the character [p0]
    before [l] itself. *)
Definition prev_from (p0 : option ascii) (l : list ascii) (i : nat) : option ascii :=
  match i with
  | O => p0
  | S j => nth_error l j
  end.

(** [m] is a bounded key starting at position [i] of the string [s]. *)
Definition key_at (s : string) (i : nat) (m : list ascii) : Prop :=
  let l := list_ascii_of_string s in
  bounded_key (prev_from None l i) (skipn i l) m.

End Extract.

(* ------------------------------------------------------------------------ *)
(** ** Python values, exceptions and the request *)

Module Handler.
Import Extract.
Local Open Scope string_scope.
Local Set Warnings "-register-all".

(** A decoded JSON value, as [request.get_json()] returns it. Numbers are
    kept as integers; no claim depends on their values. *)
Inductive json : Type :=
  | JNull
  | JBool (b : bool)
  | JNum (z : Z)
  | JStr (s : string)
  | JArr (xs : list json)
  | JObj (kvs : list (string * json)).

(** The exceptions the handler tells apart; [str(e)] is the message. *)
Inductive exn : Type :=
  | WebhookNotAuthorizedException (msg : string)
  | NotJiraIssueException (msg : string)
  | OtherException (msg : string).

Definition str_of_exn (e : exn) : string :=
  match e with
  | WebhookNotAuthorizedException m | NotJiraIssueException m | OtherException m => m
  end.

(** A computation that returns a value or raises. *)
Inductive res (A : Type) : Type :=
  | Ok (a : A)
  | Raise (e : exn).
Arguments Ok {A} a.
Arguments Raise {A} e.

(** [d[k]] on a dict decoded by [json.loads], where the last of duplicate
    keys wins. *)
Fixpoint dict_get (k : string) (kvs : list (string * json)) : option json :=
  match kvs with
  | [] => None
  | (k', v) :: r =>
      match dict_get k r with
      | Some v' => Some v'
      | None => if String.eqb k k' then Some v else None
      end
  end.

(** [v[k]] with a string key: a [KeyError] (whose [str] is the quoted key)
    on a dict without [k], a [TypeError] on any other value. *)
Definition getitem (v : json) (k : string) : res json :=
  match v with
  | JObj kvs =>
      match dict_get k kvs with
      | Some x => Ok x
      | None => Raise (OtherException ("'" ++ k ++ "'"))
      end
  | JArr _ => Raise (OtherException "list indices must be integers or slices, not str")
  | JStr _ => Raise (OtherException "string indices must be integers, not 'str'")
  | JNull => Raise (OtherException "'NoneType' object is not subscriptable")
  | JBool _ => Raise (OtherException "'bool' object is not subscriptable")
  | JNum _ => Raise (OtherException "'int' object is not subscriptable")
  end.

(** [needle in hay] for two strings: substring test. *)
Fixpoint str_contains (needle hay : string) : bool :=
  String.prefix needle hay ||
  match hay with
  | EmptyString => false
  | String _ r => str_contains needle r
  end.

(** [k in v] for a string [k]: key of a dict, element of a list, substring
    of a string; a [TypeError] on the other values. *)
Definition py_in (k : string) (v : json) : res bool :=
  match v with
  | JObj kvs => Ok (existsb (fun kv => String.eqb k (fst kv)) kvs)
  | JArr xs => Ok (existsb (fun x => match x with JStr s => String.eqb k s | _ => false end) xs)
  | JStr s => Ok (str_contains k s)
  | JNull => Raise (OtherException "argument of type 'NoneType' is not iterable")
  | JBool _ => Raise (OtherException "argument of type 'bool' is not iterable")
  | JNum _ => Raise (OtherException "argument of type 'int' is not iterable")
  end.

(** [get_payload_type] *)
Definition get_payload_type (payload : json) : res (option string) :=
  match py_in "pull_request" payload with
  | Raise e => Raise e
  | Ok true => Ok (Some "pull_request")
  | Ok false =>
      match py_in "pusher" payload with
      | Raise e => Raise e
      | Ok true => Ok (Some "push")
      | Ok false => Ok None
      end
  end.

(** The configuration dict of [get_config]. The webhook secret is kept as
    the code points of the Python string, which [bytes(_, "latin-1")]
    encodes. *)
Record config : Type := {
  jira_domain : option string;
  jira_email : option string;
  jira_token : option string;
  github_token : option string;
  github_webhook_secret : option (list N);
  callback_url : option string
}.

(** The parts of the Flask request the handler reads:
    [request.headers.get("X-Hub-Signature-256")], [request.get_data()], and
    [request.get_json()], which either decodes the body or raises (bad
    content type or malformed JSON) with the given message. *)
Record request : Type := {
  x_hub_signature_256 : option string;
  get_data : list byte;
  get_json : string + json
}.

(** The [github_commit_status] dict. [commit_sha] and [repository_name]
    hold Python values: [None] is [JNull]. *)
Record commit_status : Type := {
  commit_sha : json;
  repository_name : json;
  status_github_token : option string;
  message : string;
  status_callback_url : option string;
  status : string
}.

Definition set_commit_sha (v : json) (s : commit_status) : commit_status :=
  {| commit_sha := v; repository_name := repository_name s;
     status_github_token := status_github_token s; message := message s;
     status_callback_url := status_callback_url s; status := status s |}.

Definition set_repository_name (v : json) (s : commit_status) : commit_status :=
  {| commit_sha := commit_sha s; repository_name := v;
     status_github_token := status_github_token s; message := message s;
     status_callback_url := status_callback_url s; status := status s |}.

Definition set_message (m : string) (s : commit_status) : commit_status :=
  {| commit_sha := commit_sha s; repository_name := repository_name s;
     status_github_token := status_github_token s; message := m;
     status_callback_url := status_callback_url s; status := status s |}.

Definition set_status (v : string) (s : commit_status) : commit_status :=
  {| commit_sha := commit_sha s; repository_name := repository_name s;
     status_github_token := status_github_token s; message := message s;
     status_callback_url := status_callback_url s; status := v |}.

(** The initial value of [github_commit_status]. *)
Definition initial_commit_status (cfg : config) : commit_status :=
  {| commit_sha := JNull;
     repository_name := JNull;
     status_github_token := github_token cfg;
     message := "failed to check if branch name has a jira issue (probably not)";
     status_callback_url := callback_url cfg;
     status := "failure" |}.

(** The response of the handler: the string ["OK"] or [{"message": m}],
    with the HTTP code. *)
Inductive response_body : Type :=
  | BodyOK
  | BodyMessage (m : string).

(** The result of the Jira client calls in the [try] of [is_jira_issue]:
    the issue came back, or some exception was raised. *)
Inductive jira_outcome : Type :=
  | IssueFound
  | IssueRaised (msg : string).

(** [bytes(s, "latin-1")]: code points below 256 become one byte each; any
    other code point raises [UnicodeEncodeError]. *)
Fixpoint latin1_encode (s : list N) : option (list byte) :=
  match s with
  | [] => Some []
  | c :: r =>
      match Byte.of_N c, latin1_encode r with
      | Some b, Some bs => Some (b :: bs)
      | _, _ => None
      end
  end.

(** [s == o] for a [str] [s] and an optional [str] [o]: a [str] never
    equals [None]. *)
Definition py_str_eq_opt (s : string) (o : option string) : bool :=
  match o with
  | Some h => String.eqb s h
  | None => false
  end.

(** The messages the handler builds from the branch name and the key. *)
Definition msg_no_key (b : string) : string :=
  "branch name " ++ b ++ " does not fit the JIRA branch name requirements".
Definition msg_not_found (b k : string) : string :=
  "branch name " ++ b ++ " does not reference a JIRA issue. Issue Id (" ++ k
  ++ ") not found in JIRA.".
Definition msg_found (b k : string) : string :=
  "branch name (" ++ b ++ ") references a found Jira issue (" ++ k ++ ")".

(** [payload["pull_request"]["head"]["ref"]], the branch of the head. *)
Definition branch_ref (payload : json) : res json :=
  match getitem payload "pull_request" with
  | Raise e => Raise e
  | Ok pull_request =>
      match getitem pull_request "head" with
      | Raise e => Raise e
      | Ok head => getitem head "ref"
      end
  end.

(** The handler, with the calls into external libraries as parameters. *)
Section Pipeline.

(** [hmac.new(key=key, digestmod=hashlib.sha256, msg=msg).hexdigest()] *)
Variable hmac_sha256_hexdigest : list byte -> list byte -> string.

(** The body of the [try] of [is_jira_issue]: building the [JIRA] client
    for [config] and calling [jira.issue(issue_id)]. *)
Variable jira_issue_lookup : config -> string -> jira_outcome.

(** [push_github_commit_status]: [None] when it returns, [Some m] when it
    raises an exception [e] with [str(e) = m]. *)
Variable push_github_commit_status : commit_status -> option string.

(** [check_payload_secret]. The first assignment of [result] (to [False]
    when the header is missing) is overwritten on every path, so it is left
    out. A secret that [bytes(_, "latin-1")] cannot encode makes the call
    raise. *)
Definition check_payload_secret (req : request) (cfg : config) : res bool :=
  let github_hash := x_hub_signature_256 req in
  match github_webhook_secret cfg with
  | None => Ok true
  | Some secret =>
      match latin1_encode secret with
      | None => Raise (OtherException "'latin-1' codec can't encode character")
      | Some key =>
          let signature := hmac_sha256_hexdigest key (get_data req) in
          Ok (py_str_eq_opt ("sha256=" ++ signature) github_hash)
      end
  end.

(** [is_jira_issue]: every exception of the [try] is caught. *)
Definition is_jira_issue (cfg : config) (issue_id : string) : bool :=
  match jira_issue_lookup cfg issue_id with
  | IssueFound => true
  | IssueRaised _ => false
  end.

(** The first [try] of the handler mutates [github_commit_status] and may
    raise: a state monad over the commit status with exceptions. The state
    is kept when an exception is raised, as the mutated dict is. *)
Definition M (A : Type) : Type := commit_status -> res A * commit_status.

Definition ret {A} (a : A) : M A := fun st => (Ok a, st).

Definition bind {A B} (m : M A) (k : A -> M B) : M B :=
  fun st =>
    match m st with
    | (Ok a, st') => k a st'
    | (Raise e, st') => (Raise e, st')
    end.

Definition throw {A} (e : exn) : M A := fun st => (Raise e, st).

Definition lift {A} (r : res A) : M A := fun st => (r, st).

Definition modify (f : commit_status -> commit_status) : M unit :=
  fun st => (Ok tt, f st).

Local Notation "x <- m ;; k" := (bind m (fun x => k))
  (at level 61, m at next level, right associativity).
Local Notation "m ;;; k" := (bind m (fun _ => k))
  (at level 61, right associativity).

(** The first [try] block of [jira_github_pr_check]. The expressions
    [payload["pull_request"]["head"][...]] repeat the same pure lookups, so
    [head] is looked up once. *)
Definition pr_check_body (cfg : config) (req : request) : M unit :=
  authorized <- lift (check_payload_secret req cfg) ;;
  if negb authorized
  then throw (WebhookNotAuthorizedException "webhook secret do not match")
  else
  payload <- lift (match get_json req with
                   | inl m => Raise (OtherException m)
                   | inr v => Ok v
                   end) ;;
  payload_type <- lift (get_payload_type payload) ;;
  if negb (py_str_eq_opt "pull_request" payload_type)
  then throw (OtherException "this callback only manages PR webhook. Fix the webhook settings.")
  else
      pull_request <- lift (getitem payload "pull_request") ;;
      head <- lift (getitem pull_request "head") ;;
      branch_name <- lift (getitem head "ref") ;;
      match branch_name with
      | JNull =>
          throw (OtherException "Github payload is not a proper JSON: github webhook must send a JSON payload in application/json MIME type. Review the webhook settings")
      | _ =>
          sha <- lift (getitem head "sha") ;;
          modify (set_commit_sha sha) ;;;
          repo <- lift (getitem head "repo") ;;
          full_name <- lift (getitem repo "full_name") ;;
          modify (set_repository_name full_name) ;;;
          match branch_name with
          | JStr b =>
              match get_jira_issue_from_branch_name b with
              | None =>
                  throw (NotJiraIssueException (msg_no_key b))
              | Some issue_id =>
                  if negb (is_jira_issue cfg issue_id)
                  then throw (NotJiraIssueException (msg_not_found b issue_id))
                  else
                    modify (set_message (msg_found b issue_id)) ;;;
                    modify (set_status "success")
              end
          | _ =>
              (* [regex.findall] on a value that is not a [str] *)
              throw (OtherException "expected string or buffer")
          end
      end.

(** The [except] clauses, in order: the response and code of each
    exception kind; every clause also stores [str(e)] as the message. *)
Definition code_of_exn (e : exn) : Z :=
  match e with
  | WebhookNotAuthorizedException _ => 403
  | NotJiraIssueException _ => 404
  | OtherException _ => 400
  end.

(** The outcome of the first [try]/[except]: body, code, and the commit
    status as it stands before the push. *)
Definition pipeline_outcome (cfg : config) (req : request)
    : response_body * Z * commit_status :=
  match pr_check_body cfg req (initial_commit_status cfg) with
  | (Ok _, st) => (BodyOK, 200%Z, st)
  | (Raise e, st) =>
      (BodyMessage (str_of_exn e), code_of_exn e, set_message (str_of_exn e) st)
  end.

(** [jira_github_pr_check]: the response, its code, and the list of commit
    statuses handed to [push_github_commit_status] (the push attempts). *)
Definition jira_github_pr_check (cfg : config) (req : request)
    : (response_body * Z) * list commit_status :=
  let '(result, send_http_code, github_commit_status) := pipeline_outcome cfg req in
  if Z.eqb send_http_code 403
  then ((result, send_http_code), [])
  else
    match push_github_commit_status github_commit_status with
    | None => ((result, send_http_code), [github_commit_status])
    | Some err => ((BodyMessage err, 500%Z), [github_commit_status])
    end.

End Pipeline.

End Handler.

(* ------------------------------------------------------------------------ *)
(** ** [get_branch_name_from_ref]

    [regex.match] of the pattern [^refs/heads/(.* )$] (a space is put before
    the closing parenthesis here only) on [git_ref], and its group 1. [.] is any
    character but a newline; [$] holds at the end of the string or before a
    newline that ends it. The function has no caller in the module. *)

Module BranchRef.
Import Extract.

(** The literal part [refs/heads/] of the pattern. *)
Definition ref_prefix : list ascii := list_ascii_of_string "refs/heads/".

(** Matches the literal [p] at the front of [l], giving what follows. *)
Fixpoint strip_prefix (p l : list ascii) : option (list ascii) :=
  match p, l with
  | [], _ => Some l
  | c :: p', d :: l' => if Ascii.eqb c d then strip_prefix p' l' else None
  | _ :: _, [] => None
  end.

(** [.] without DOTALL *)
Definition not_newline (c : ascii) : bool := negb (Ascii.eqb c "010"%char).

(** [$] without MULTILINE *)
Definition dollar (r : list ascii) : bool :=
  match r with
  | [] => true
  | [c] => Ascii.eqb c "010"%char
  | _ => false
  end.

(** [return match[1] if match is not None else match] *)
Definition get_branch_name_from_ref (git_ref : string) : option string :=
  match strip_prefix ref_prefix (list_ascii_of_string git_ref) with
  | None => None
  | Some rest =>
      match greedy not_newline 0 (List.length rest) rest
              (fun r => if dollar r then Some 0 else None) with
      | Some n => Some (string_of_list_ascii (firstn n rest))
      | None => None
      end
  end.

End BranchRef.

(* ------------------------------------------------------------------------ *)
(** ** Concrete inputs used by the examples and counterexamples *)

Module Samples.
Import Extract Handler.
Local Open Scope string_scope.

(** Stand-ins for the external calls. The HMAC stub is only used where the
    digest is never reached or where its value does not matter. *)
Definition hmac_stub : list byte -> list byte -> string := fun _ _ => "0".
Definition jira_found : config -> string -> jira_outcome := fun _ _ => IssueFound.
Definition jira_missing : config -> string -> jira_outcome :=
  fun _ _ => IssueRaised "Issue Does Not Exist".
Definition push_ok : commit_status -> option string := fun _ => None.
Definition push_fail : commit_status -> option string := fun _ => Some "Bad credentials".

Definition cfg_no_secret : config :=
  {| jira_domain := Some "example.atlassian.net"; jira_email := Some "dev@example.com";
     jira_token := Some "t"; github_token := Some "g";
     github_webhook_secret := None; callback_url := None |}.

(** A secret holding the euro sign, code point 8364, outside latin-1. *)
Definition cfg_euro_secret : config :=
  {| jira_domain := Some "example.atlassian.net"; jira_email := Some "dev@example.com";
     jira_token := Some "t"; github_token := Some "g";
     github_webhook_secret := Some [8364%N]; callback_url := None |}.

Definition cfg_secret : config :=
  {| jira_domain := Some "example.atlassian.net"; jira_email := Some "dev@example.com";
     jira_token := Some "t"; github_token := Some "g";
     github_webhook_secret := Some [115%N; 51%N; 99%N]; callback_url := None |}.

(** A pull-request payload whose head branch is [b]. *)
Definition pr_repo : json := JObj [("full_name", JStr "octo/app")].

Definition pr_head (b : string) : json :=
  JObj [("ref", JStr b); ("sha", JStr "6dcb09b5"); ("repo", pr_repo)].

Definition pr_object (b : string) : json :=
  JObj [("number", JNum 7); ("head", pr_head b)].

Definition pr_payload (b : string) : json :=
  JObj [("action", JStr "opened"); ("pull_request", pr_object b)].

Definition pr_request (b : string) : request :=
  {| x_hub_signature_256 := None; get_data := []; get_json := inr (pr_payload b) |}.

(** A push event. *)
Definition push_request : request :=
  {| x_hub_signature_256 := None; get_data := [];
     get_json := inr (JObj [("ref", JStr "refs/heads/main"); ("pusher", JObj [])]) |}.

(** A request whose body [request.get_json()] cannot decode. *)
Definition bad_json_request : request :=
  {| x_hub_signature_256 := None; get_data := [];
     get_json := inl "400 Bad Request: Failed to decode JSON object" |}.

End Samples.

(* ======================================================================== *)
(** * Proofs *)

Module ExtractFacts.
Import Extract.

Lemma run_le_length p l : run p l <= List.length l.
Proof. induction l as [|c r IH]; simpl; [lia|]. destruct (p c); simpl; lia. Qed.

Lemma run_firstn p l n : n <= run p l -> forallb p (firstn n l) = true.
Proof.
  revert n; induction l as [|c r IH]; intros n Hn; destruct n; simpl in *; auto.
  destruct (p c) eqn:Hc; simpl in Hn; [|lia].
  simpl. apply IH. lia.
Qed.

Lemma run_app p a b :
  forallb p a = true ->
  match b with [] => True | c :: _ => p c = false end ->
  run p (a ++ b) = List.length a.
Proof.
  induction a as [|c r IH]; simpl; intros Ha Hb.
  - destruct b as [|c b]; [reflexivity|]. simpl. now rewrite Hb.
  - apply andb_prop in Ha as [Hc Hr]. rewrite Hc. now rewrite IH.
Qed.

Lemma try_down_sound lo n k e :
  try_down lo n k = Some e -> exists j, lo <= j <= n /\ k j = Some e.
Proof.
  induction n as [|n IH]; simpl; intros H.
  - destruct (0 <? lo) eqn:Hlo; [discriminate|].
    apply Nat.ltb_ge in Hlo.
    destruct (k 0) eqn:Hk; [|discriminate]. inversion H; subst.
    exists 0. split; [lia|assumption].
  - destruct (S n <? lo) eqn:Hlo; [discriminate|].
    apply Nat.ltb_ge in Hlo.
    destruct (k (S n)) eqn:Hk.
    + inversion H; subst. exists (S n). split; [lia|assumption].
    + destruct (IH H) as (j & Hj & Hkj). exists j. split; [lia|assumption].
Qed.

Lemma try_down_top lo n k e :
  lo <= n -> k n = Some e -> try_down lo n k = Some e.
Proof.
  intros Hlo Hk. destruct n; simpl;
    (destruct (_ <? lo) eqn:H; [apply Nat.ltb_lt in H; lia|]); now rewrite Hk.
Qed.

Lemma is_sep_spec c : is_sep c = true <-> sep_char c.
Proof.
  unfold is_sep, sep_char. rewrite !orb_true_iff, !Ascii.eqb_eq. tauto.
Qed.

Lemma lookbehind_spec p : lookbehind p = true <-> left_bounded p.
Proof.
  unfold left_bounded. destruct p as [c|]; simpl.
  - rewrite is_sep_spec. split.
    + intros H. right. eauto.
    + intros [H|(c' & H & Hc)]; [discriminate|]. now inversion H; subst.
  - split; auto.
Qed.

Lemma lookahead_spec r : lookahead r = true <-> right_bounded r.
Proof.
  unfold right_bounded. destruct r as [|c r]; simpl.
  - split; auto.
  - rewrite orb_true_iff, is_sep_spec, andb_true_iff, Ascii.eqb_eq. split.
    + intros [H|[H1 H2]].
      * right; left; eauto.
      * right; right. destruct r; [now subst|discriminate].
    + intros [H|[(c' & r' & H & Hc)|H]]; [discriminate| |].
      * inversion H; subst; now left.
      * inversion H; subst. now right.
Qed.

(** A boundary character or a newline is never a digit. *)
Lemma right_bounded_not_digit r :
  right_bounded r -> match r with [] => True | c :: _ => is_digit c = false end.
Proof.
  intros [H|[(c & r' & H & Hc)|H]]; subst; simpl; auto.
  destruct Hc as [ -> | [ -> | -> ] ]; reflexivity.
Qed.

Lemma match_key_sound l n :
  match_key l = Some n ->
  exists m rest, l = m ++ rest /\ n = List.length m /\ key_shape m /\ right_bounded rest.
Proof.
  destruct l as [|c r]; simpl; [discriminate|].
  destruct (is_first c) eqn:Hc; [|discriminate].
  unfold greedy. intros H.
  destruct (try_down _ _ _) as [n1|] eqn:H1; simpl in H; [|discriminate].
  inversion H; subst n; clear H.
  apply try_down_sound in H1 as (j & Hj & Hk1).
  destruct (skipn j r) as [|d r2] eqn:Hsk; simpl in Hk1; [discriminate|].
  destruct (Ascii.eqb d "-") eqn:Hd; simpl in Hk1; [|discriminate].
  apply Ascii.eqb_eq in Hd; subst d.
  destruct (try_down _ _ _) as [n2|] eqn:H2; simpl in Hk1; [|discriminate].
  inversion Hk1; subst n1; clear Hk1.
  apply try_down_sound in H2 as (j2 & Hj2 & Hk2).
  destruct (lookahead (skipn j2 r2)) eqn:Hla; simpl in Hk2; [|discriminate].
  inversion Hk2; subst n2; clear Hk2.
  pose proof (run_le_length is_alpha r). pose proof (run_le_length is_digit r2).
  exists (c :: firstn j r ++ "-"%char :: firstn j2 r2), (skipn j2 r2).
  split; [|split; [|split]].
  - simpl. f_equal. rewrite <- (firstn_skipn j r) at 1. rewrite Hsk.
    rewrite <- (firstn_skipn j2 r2) at 1. rewrite <- app_assoc. reflexivity.
  - simpl. rewrite length_app. simpl. rewrite !length_firstn. lia.
  - exists c, (firstn j r), (firstn j2 r2).
    split; [reflexivity|]. split; [assumption|].
    rewrite length_firstn. split; [lia|].
    split; [apply run_firstn; lia|].
    split; [|apply run_firstn; lia].
    intros E. apply (f_equal (@List.length ascii)) in E.
    rewrite length_firstn in E. simpl in E. lia.
  - now apply lookahead_spec.
Qed.

Lemma match_key_complete m rest :
  key_shape m -> right_bounded rest -> match_key (m ++ rest) = Some (List.length m).
Proof.
  intros (c & letters & digits & -> & Hc & Hlen & Hl & Hdne & Hd) Hr.
  pose proof (right_bounded_not_digit _ Hr) as Hnd.
  cbn [app]. rewrite <- app_assoc. cbn [app].
  unfold match_key. rewrite Hc. unfold greedy.
  rewrite (run_app is_alpha letters) by (simpl; auto).
  rewrite Nat.min_r by lia.
  assert (Hdig : try_down 1
            (Nat.min (List.length (digits ++ rest)) (run is_digit (digits ++ rest)))
            (fun n => option_map (Nat.add n)
               (if lookahead (skipn n (digits ++ rest)) then Some 0 else None))
          = Some (List.length digits)).
  { rewrite (run_app is_digit digits rest Hd) by (destruct rest; auto).
    rewrite Nat.min_r by (rewrite length_app; lia).
    apply try_down_top.
    - destruct digits; [congruence|simpl; lia].
    - rewrite skipn_app, skipn_all, Nat.sub_diag. cbn [skipn app].
      apply lookahead_spec in Hr. rewrite Hr. cbn [option_map]. f_equal. lia. }
  rewrite (try_down_top 1 (List.length letters) _ (List.length letters + S (List.length digits))).
  - cbn [option_map List.length]. f_equal. rewrite length_app. simpl. lia.
  - lia.
  - rewrite skipn_app, skipn_all, Nat.sub_diag. cbn [skipn app].
    rewrite Ascii.eqb_refl. rewrite Hdig. reflexivity.
Qed.

Lemma match_at_sound prev l n :
  match_at prev l = Some n ->
  exists m rest, l = m ++ rest /\ n = List.length m /\ bounded_key prev l m.
Proof.
  unfold match_at. destruct (lookbehind prev) eqn:Hb; [|discriminate].
  intros H. apply match_key_sound in H as (m & rest & -> & -> & Hm & Hr).
  exists m, rest. repeat split; auto.
  - now apply lookbehind_spec.
  - exists rest. auto.
Qed.

Lemma match_at_complete prev l m :
  bounded_key prev l m -> match_at prev l = Some (List.length m).
Proof.
  intros (Hb & Hm & rest & -> & Hr). unfold match_at.
  apply lookbehind_spec in Hb. rewrite Hb. now apply match_key_complete.
Qed.

Lemma match_at_nil prev : match_at prev [] = None.
Proof. unfold match_at. now destruct (lookbehind prev). Qed.

Lemma prev_from_cons p0 c r i :
  prev_from p0 (c :: r) (S i) = prev_from (Some c) r i.
Proof. destruct i; reflexivity. Qed.

(** The head of [findall_from] is the match at the leftmost position where
    the pattern matches. *)
Lemma findall_from_head fuel prev l :
  List.length l < fuel ->
  match findall_from fuel prev l with
  | m :: _ =>
      exists i n,
        match_at (prev_from prev l i) (skipn i l) = Some n /\
        m = firstn n (skipn i l) /\
        forall i', i' < i -> match_at (prev_from prev l i') (skipn i' l) = None
  | [] => forall i, match_at (prev_from prev l i) (skipn i l) = None
  end.
Proof.
  revert prev fuel. induction l as [|c r IH]; intros prev fuel Hf;
    (destruct fuel as [|f]; [simpl in Hf; lia|]); simpl.
  - rewrite match_at_nil. intros i. rewrite skipn_nil. apply match_at_nil.
  - destruct (match_at prev (c :: r)) as [n|] eqn:H0.
    + exists 0, n. simpl. repeat split; auto. intros; lia.
    + specialize (IH (Some c) f ltac:(simpl in Hf; lia)).
      destruct (findall_from f (Some c) r) as [|m ms].
      * intros [|i]; [exact H0|]. rewrite prev_from_cons. apply IH.
      * destruct IH as (i & n & Hi & Hm & Hbefore).
        exists (S i), n. rewrite prev_from_cons. repeat split; auto.
        intros [|i'] Hi'; [exact H0|]. rewrite prev_from_cons.
        apply Hbefore. lia.
Qed.

(** Specification of the extractor in terms of [key_at]: the result is the
    bounded key at the leftmost position that has one, and [None] when no
    position has one. *)
Lemma get_jira_issue_spec s :
  match get_jira_issue_from_branch_name s with
  | Some k =>
      exists i m, key_at s i m /\ k = string_of_list_ascii m /\
        forall i' m', i' < i -> ~ key_at s i' m'
  | None => forall i m, ~ key_at s i m
  end.
Proof.
  unfold get_jira_issue_from_branch_name, findall, key_at.
  set (l := list_ascii_of_string s).
  pose proof (findall_from_head (S (List.length l)) None l ltac:(lia)) as H.
  destruct (findall_from _ None l) as [|m ms].
  - intros i m Hk. apply match_at_complete in Hk. congruence.
  - destruct H as (i & n & Hi & -> & Hbefore).
    pose proof Hi as Hs. apply match_at_sound in Hs as (m & rest & Heq & -> & Hk).
    exists i, m. split; [|split].
    + exact Hk.
    + rewrite Heq, firstn_app, Nat.sub_diag, firstn_all. simpl.
      now rewrite app_nil_r.
    + intros i' m' Hi' Hk'. apply match_at_complete in Hk'.
      rewrite (Hbefore i' Hi') in Hk'. discriminate.
Qed.

End ExtractFacts.

Module HandlerFacts.
Import Extract Handler.
Local Open Scope string_scope.

Section Env.
Variable h : list byte -> list byte -> string.
Variable j : config -> string -> jira_outcome.
Variable p : commit_status -> option string.

Ltac step := cbv beta iota delta [bind lift throw modify ret] in *.

(** The handler hands at most one commit status to the push. *)
Lemma push_attempts_le_1 cfg req :
  List.length (snd (jira_github_pr_check h j p cfg req)) <= 1.
Proof.
  unfold jira_github_pr_check.
  destruct (pipeline_outcome h j cfg req) as [[r c] st].
  destruct (Z.eqb c 403); [simpl; lia|].
  destruct (p st); simpl; lia.
Qed.

(** When the code before the push is not 403, the status is pushed once and
    the response is kept unless the push raises. *)
Lemma handler_after_outcome cfg req r c st :
  pipeline_outcome h j cfg req = (r, c, st) -> c <> 403%Z ->
  jira_github_pr_check h j p cfg req =
    (match p st with
     | None => (r, c)
     | Some err => (BodyMessage err, 500%Z)
     end, [st]).
Proof.
  intros Ho Hc. unfold jira_github_pr_check. rewrite Ho.
  apply Z.eqb_neq in Hc. rewrite Hc. now destruct (p st).
Qed.

Lemma auth_failure_outcome cfg req :
  check_payload_secret h req cfg = Ok false ->
  pipeline_outcome h j cfg req =
    (BodyMessage "webhook secret do not match", 403%Z,
     set_message "webhook secret do not match" (initial_commit_status cfg)).
Proof.
  intros H. unfold pipeline_outcome, pr_check_body. step. rewrite H. reflexivity.
Qed.

(** Once the head of the pull request is read, the outcome depends on the
    extractor and the tracker only. *)
Lemma outcome_after_head cfg req payload pr hd b sha repo fn :
  check_payload_secret h req cfg = Ok true ->
  get_json req = inr payload ->
  get_payload_type payload = Ok (Some "pull_request") ->
  getitem payload "pull_request" = Ok pr ->
  getitem pr "head" = Ok hd ->
  getitem hd "ref" = Ok (JStr b) ->
  getitem hd "sha" = Ok sha ->
  getitem hd "repo" = Ok repo ->
  getitem repo "full_name" = Ok fn ->
  pipeline_outcome h j cfg req =
    let st := set_repository_name fn (set_commit_sha sha (initial_commit_status cfg)) in
    match get_jira_issue_from_branch_name b with
    | None => (BodyMessage (msg_no_key b), 404%Z, set_message (msg_no_key b) st)
    | Some k =>
        if is_jira_issue j cfg k
        then (BodyOK, 200%Z, set_status "success" (set_message (msg_found b k) st))
        else (BodyMessage (msg_not_found b k), 404%Z, set_message (msg_not_found b k) st)
    end.
Proof.
  intros Hc Hj Ht H1 H2 H3 H4 H5 H6.
  unfold pipeline_outcome, pr_check_body. step.
  rewrite Hc. simpl. rewrite Hj, Ht. simpl. rewrite H1, H2, H3, H4, H5, H6. simpl.
  destruct (get_jira_issue_from_branch_name b) as [k|]; [|reflexivity].
  destruct (is_jira_issue j cfg k); reflexivity.
Qed.

Lemma getitem_raise v k e :
  getitem v k = Raise e -> exists m, e = OtherException m.
Proof.
  destruct v; simpl; try (intros H; inversion H; eauto; fail).
  destruct (dict_get k kvs); intros H; inversion H; eauto.
Qed.

Lemma get_payload_type_raise v e :
  get_payload_type v = Raise e -> exists m, e = OtherException m.
Proof.
  unfold get_payload_type, py_in.
  destruct v; intros H; try discriminate;
    repeat match goal with
           | H : context [if ?b then _ else _] |- _ => destruct b
           end;
    inversion H; eauto.
Qed.

(** A request that passes the signature check but fails before the head of
    the pull request is read leaves [commit_sha] and [repository_name] at
    their initial [None], with a code other than 403. *)
Lemma outcome_before_head cfg req :
  check_payload_secret h req cfg = Ok true ->
  (exists m, get_json req = inl m) \/
  (exists payload, get_json req = inr payload /\
     get_payload_type payload <> Ok (Some "pull_request")) \/
  (exists payload, get_json req = inr payload /\
     get_payload_type payload = Ok (Some "pull_request") /\
     (branch_ref payload = Ok JNull \/ exists e, branch_ref payload = Raise e)) ->
  exists r c st, pipeline_outcome h j cfg req = (r, c, st) /\ c <> 403%Z /\
    commit_sha st = JNull /\ repository_name st = JNull.
Proof.
  intros Hc Hcase. unfold pipeline_outcome, pr_check_body. step.
  rewrite Hc. simpl.
  destruct Hcase as [(m & Hm)|[(payload & Hj & Ht)|(payload & Hj & Ht & Hb)]].
  - rewrite Hm. simpl. eexists _, _, _. split; [reflexivity|]. simpl. split; [discriminate|auto].
  - rewrite Hj. simpl.
    destruct (get_payload_type payload) as [t|e] eqn:Et; simpl.
    + destruct (py_str_eq_opt "pull_request" t) eqn:Eq; simpl.
      * exfalso. apply Ht. destruct t as [t|]; [|discriminate].
        unfold py_str_eq_opt in Eq. apply String.eqb_eq in Eq. now subst t.
      * eexists _, _, _. split; [reflexivity|]. simpl. split; [discriminate|auto].
    + eexists _, _, _. split; [reflexivity|]. simpl. split; [|auto].
      apply get_payload_type_raise in Et as (m & ->). discriminate.
  - rewrite Hj, Ht. simpl. unfold branch_ref in Hb.
    destruct (getitem payload "pull_request") as [pr|e1] eqn:E1; simpl.
    2:{ eexists _, _, _. split; [reflexivity|]. simpl. split; [|auto].
        apply getitem_raise in E1 as (m & ->). discriminate. }
    destruct (getitem pr "head") as [hd|e2] eqn:E2; simpl.
    2:{ eexists _, _, _. split; [reflexivity|]. simpl. split; [|auto].
        apply getitem_raise in E2 as (m & ->). discriminate. }
    destruct Hb as [Hb|(e & Hb)]; rewrite Hb; simpl.
    + eexists _, _, _. split; [reflexivity|]. simpl. split; [discriminate|auto].
    + eexists _, _, _. split; [reflexivity|]. simpl. split; [|auto].
      apply getitem_raise in Hb as (m & ->). discriminate.
Qed.

End Env.

Lemma latin1_encode_None_iff s :
  latin1_encode s = None <-> Exists (fun c => (255 < c)%N) s.
Proof.
  induction s as [|c r IH]; simpl.
  - split; [discriminate|intros H; inversion H].
  - rewrite Exists_cons. destruct (Byte.of_N c) eqn:Hc.
    + assert (~ (255 < c)%N) as Hn.
      { intros Hlt. apply Byte.of_N_None_iff in Hlt. congruence. }
      destruct (latin1_encode r) eqn:Hr.
      * split; [discriminate|]. intros [H|H]; [contradiction|].
        apply IH in H. discriminate.
      * split; [|reflexivity]. intros _. right. now apply IH.
    + apply Byte.of_N_None_iff in Hc. split; auto.
Qed.

End HandlerFacts.

(* ======================================================================== *)
(** * The claims *)

Module Claims.
Import Extract Handler Samples ExtractFacts HandlerFacts.
Local Open Scope string_scope.

(** C1 (counterexample). The claim reads the pattern as
    [[A-Z][A-Za-z]{1,10}-[0-9]+] bounded by whitespace. The source's class
    for the first character is [[0-9A-Z]], so ["1AB-5"] is returned although
    it does not start with an upper-case letter; and its boundary is the
    space character only, so a key after a tab is not found. *)
Lemma C1_leading_digit_and_tab :
  get_jira_issue_from_branch_name "1AB-5" = Some "1AB-5" /\ is_upper "1"%char = false /\
  get_jira_issue_from_branch_name (String "009"%char "ABC-123") = None.
Proof. vm_compute. auto. Qed.

(** C1 (amended). The extractor returns a substring exactly when the
    branch name has a key at some position, a key being
    [[0-9A-Z][A-Za-z]{1,10}-[0-9]+] preceded by the start of the string, a
    space, a hyphen or an underscore, and followed by the end of the string,
    a final newline, a space, a hyphen or an underscore; what it returns is
    such a key. A key inside a hyphenated token, as in
    ["prefix-ABC-123-suffix"], is found. *)
Theorem C1_extractor_returns_bounded_keys :
  forall s,
    (get_jira_issue_from_branch_name s = None <-> forall i m, ~ key_at s i m) /\
    (forall k, get_jira_issue_from_branch_name s = Some k ->
       exists i m, key_at s i m /\ k = string_of_list_ascii m) /\
    get_jira_issue_from_branch_name "prefix-ABC-123-suffix" = Some "ABC-123".
Proof.
  intros s. pose proof (get_jira_issue_spec s) as H.
  split; [|split].
  - destruct (get_jira_issue_from_branch_name s) as [k|]; split; auto.
    + discriminate.
    + intros Hno. destruct H as (i & m & Hk & _). exfalso. exact (Hno i m Hk).
  - intros k Hk. rewrite Hk in H. destruct H as (i & m & Hm & -> & _). eauto.
  - vm_compute. reflexivity.
Qed.

(** C2 (counterexample). With a configured secret holding a character
    outside latin-1, [bytes(secret, "latin-1")] raises: the verifier neither
    returns true nor false. *)
Lemma C2_non_latin1_secret_raises :
  check_payload_secret hmac_stub (pr_request "ABC-1") cfg_euro_secret =
    Raise (OtherException "'latin-1' codec can't encode character").
Proof. reflexivity. Qed.

(** C2 (amended). Without a secret the verifier returns true whatever the
    header. With a secret whose characters are all latin-1 (code points
    below 256), it returns true exactly when the header is ["sha256="]
    followed by the HMAC-SHA256 hex digest of the raw body keyed by the
    latin-1 bytes of the secret, and false otherwise, in particular when the
    header is missing. A secret with a character outside latin-1 makes it
    raise. *)
Theorem C2_signature_check :
  forall (hmac : list byte -> list byte -> string) req cfg,
    (github_webhook_secret cfg = None -> check_payload_secret hmac req cfg = Ok true) /\
    (forall secret, github_webhook_secret cfg = Some secret ->
       match latin1_encode secret with
       | Some key =>
           exists b, check_payload_secret hmac req cfg = Ok b /\
             (b = true <->
              x_hub_signature_256 req = Some ("sha256=" ++ hmac key (get_data req))) /\
             (x_hub_signature_256 req = None -> b = false)
       | None => exists e, check_payload_secret hmac req cfg = Raise e
       end) /\
    (forall secret, latin1_encode secret = None <-> Exists (fun c => (255 < c)%N) secret).
Proof.
  intros hmac req cfg. split; [|split].
  - intros H. unfold check_payload_secret. now rewrite H.
  - intros secret H. unfold check_payload_secret. rewrite H.
    destruct (latin1_encode secret) as [key|]; [|eauto].
    eexists. split; [reflexivity|]. unfold py_str_eq_opt.
    destruct (x_hub_signature_256 req) as [hd|].
    + split; [|discriminate]. rewrite String.eqb_eq. split.
      * intros ->. reflexivity.
      * intros E. inversion E. reflexivity.
    + split; [split; discriminate|auto].
  - apply latin1_encode_None_iff.
Qed.

(** C3. Every request hands at most one commit status to the push, and a
    request whose signature check returns false gets 403 with no push. *)
Theorem C3_push_at_most_once_none_on_auth_failure :
  forall hmac jira push cfg req,
    List.length (snd (jira_github_pr_check hmac jira push cfg req)) <= 1 /\
    (check_payload_secret hmac req cfg = Ok false ->
     jira_github_pr_check hmac jira push cfg req =
       ((BodyMessage "webhook secret do not match", 403%Z), [])).
Proof.
  intros hmac jira push cfg req. split.
  - apply push_attempts_le_1.
  - intros H. unfold jira_github_pr_check.
    rewrite (auth_failure_outcome hmac jira cfg req H). reflexivity.
Qed.

(** C4. [is_jira_issue] is true exactly when the tracker call returns the
    issue; any exception raised by the call gives false. *)
Theorem C4_is_jira_issue_true_iff_found :
  forall (jira : config -> string -> jira_outcome) cfg issue_id,
    (is_jira_issue jira cfg issue_id = true <-> jira cfg issue_id = IssueFound) /\
    (forall m, jira cfg issue_id = IssueRaised m -> is_jira_issue jira cfg issue_id = false).
Proof.
  intros jira cfg issue_id. unfold is_jira_issue. split.
  - destruct (jira cfg issue_id); split; congruence.
  - intros m ->. reflexivity.
Qed.

(** C5. For an authenticated pull-request request whose head is
    read, a branch with no key and a key the tracker does not confirm both
    push a ["failure"] status whose message embeds the branch name (and the
    key in the second case), and both give 404 with that message when the
    push succeeds (500 with the push error otherwise, see C6). *)
Theorem C5_not_referenced_gives_404 :
  forall hmac jira push cfg req payload pr hd b sha repo fn,
    check_payload_secret hmac req cfg = Ok true ->
    get_json req = inr payload ->
    get_payload_type payload = Ok (Some "pull_request") ->
    getitem payload "pull_request" = Ok pr ->
    getitem pr "head" = Ok hd ->
    getitem hd "ref" = Ok (JStr b) ->
    getitem hd "sha" = Ok sha ->
    getitem hd "repo" = Ok repo ->
    getitem repo "full_name" = Ok fn ->
    (get_jira_issue_from_branch_name b = None \/
     exists k, get_jira_issue_from_branch_name b = Some k /\ is_jira_issue jira cfg k = false) ->
    exists st,
      snd (jira_github_pr_check hmac jira push cfg req) = [st] /\
      status st = "failure" /\
      message st = match get_jira_issue_from_branch_name b with
                   | None => msg_no_key b
                   | Some k => msg_not_found b k
                   end /\
      fst (jira_github_pr_check hmac jira push cfg req) =
        match push st with
        | None => (BodyMessage (message st), 404%Z)
        | Some err => (BodyMessage err, 500%Z)
        end.
Proof.
  intros hmac jira push cfg req payload pr hd b sha repo fn Hc Hj Ht H1 H2 H3 H4 H5 H6 Hcase.
  pose proof (outcome_after_head hmac jira cfg req payload pr hd b sha repo fn
                Hc Hj Ht H1 H2 H3 H4 H5 H6) as Ho.
  destruct Hcase as [Hn|(k & Hk & Hf)].
  - rewrite Hn in Ho |- *.
    rewrite (handler_after_outcome hmac jira push cfg req _ _ _ Ho) by discriminate.
    eexists; repeat split.
  - rewrite Hk, Hf in Ho. rewrite Hk.
    rewrite (handler_after_outcome hmac jira push cfg req _ _ _ Ho) by discriminate.
    eexists; repeat split.
Qed.

Lemma C5_not_referenced_gives_404_witness :
  exists st,
    snd (jira_github_pr_check hmac_stub jira_missing push_ok cfg_no_secret
           (pr_request "hotfix-misc-cleanup")) = [st] /\
    status st = "failure" /\
    message st = msg_no_key "hotfix-misc-cleanup" /\
    fst (jira_github_pr_check hmac_stub jira_missing push_ok cfg_no_secret
           (pr_request "hotfix-misc-cleanup")) =
      match push_ok st with
      | None => (BodyMessage (message st), 404%Z)
      | Some err => (BodyMessage err, 500%Z)
      end.
Proof.
  apply (C5_not_referenced_gives_404 hmac_stub jira_missing push_ok cfg_no_secret
           (pr_request "hotfix-misc-cleanup") (pr_payload "hotfix-misc-cleanup")
           (pr_object "hotfix-misc-cleanup") (pr_head "hotfix-misc-cleanup")
           "hotfix-misc-cleanup" (JStr "6dcb09b5") pr_repo (JStr "octo/app"));
    try reflexivity.
  left. vm_compute. reflexivity.
Defined.

(** C6. Whenever the push is attempted (the code before it is not 403) and
    raises, the response is 500 with the message of the push error, whatever
    the code before it was. *)
Theorem C6_push_error_gives_500 :
  forall hmac jira push cfg req r c st err,
    pipeline_outcome hmac jira cfg req = (r, c, st) ->
    c <> 403%Z ->
    push st = Some err ->
    jira_github_pr_check hmac jira push cfg req = ((BodyMessage err, 500%Z), [st]).
Proof.
  intros hmac jira push cfg req r c st err Ho Hc Hp.
  unfold jira_github_pr_check. rewrite Ho.
  apply Z.eqb_neq in Hc. rewrite Hc, Hp. reflexivity.
Qed.

Lemma C6_push_error_gives_500_witness :
  jira_github_pr_check hmac_stub jira_found push_fail cfg_no_secret
    (pr_request "ABC-123-login") =
  ((BodyMessage "Bad credentials", 500%Z),
   [snd (pipeline_outcome hmac_stub jira_found cfg_no_secret (pr_request "ABC-123-login"))]).
Proof.
  apply (C6_push_error_gives_500 hmac_stub jira_found push_fail cfg_no_secret
           (pr_request "ABC-123-login")
           (fst (fst (pipeline_outcome hmac_stub jira_found cfg_no_secret (pr_request "ABC-123-login"))))
           (snd (fst (pipeline_outcome hmac_stub jira_found cfg_no_secret (pr_request "ABC-123-login"))))).
  - reflexivity.
  - vm_compute. discriminate.
  - reflexivity.
Defined.

(** C7. A request that passes the signature check but fails before the
    head of the pull request is read (body not decodable, payload not a pull
    request, missing or null head ref) still hands exactly one commit status
    to the push, whose commit SHA and repository name are [None]. *)
Theorem C7_early_failure_pushes_initial_status :
  forall hmac jira push cfg req,
    check_payload_secret hmac req cfg = Ok true ->
    (exists m, get_json req = inl m) \/
    (exists payload, get_json req = inr payload /\
       get_payload_type payload <> Ok (Some "pull_request")) \/
    (exists payload, get_json req = inr payload /\
       get_payload_type payload = Ok (Some "pull_request") /\
       (branch_ref payload = Ok JNull \/ exists e, branch_ref payload = Raise e)) ->
    exists st,
      snd (jira_github_pr_check hmac jira push cfg req) = [st] /\
      commit_sha st = JNull /\ repository_name st = JNull.
Proof.
  intros hmac jira push cfg req Hc Hcase.
  destruct (outcome_before_head hmac jira cfg req Hc Hcase) as (r & c & st & Ho & Hn & Hs & Hr).
  rewrite (handler_after_outcome hmac jira push cfg req r c st Ho Hn).
  exists st. auto.
Qed.

Lemma C7_early_failure_pushes_initial_status_witness :
  exists st,
    snd (jira_github_pr_check hmac_stub jira_found push_ok cfg_no_secret push_request) = [st] /\
    commit_sha st = JNull /\ repository_name st = JNull.
Proof.
  apply (C7_early_failure_pushes_initial_status hmac_stub jira_found push_ok
           cfg_no_secret push_request).
  - reflexivity.
  - right. left. exists (JObj [("ref", JStr "refs/heads/main"); ("pusher", JObj [])]).
    split; [reflexivity|]. vm_compute. discriminate.
Defined.

(** C8. For an authenticated pull-request request whose head
    branch yields a key that the tracker returns, a ["success"] status whose
    message embeds the branch name and the key is pushed, and the response is
    200 with body ["OK"] when the push succeeds (500 with the push error
    otherwise, see C6). *)
Theorem C8_success_gives_200_ok :
  forall hmac jira push cfg req payload pr hd b sha repo fn k,
    check_payload_secret hmac req cfg = Ok true ->
    get_json req = inr payload ->
    get_payload_type payload = Ok (Some "pull_request") ->
    getitem payload "pull_request" = Ok pr ->
    getitem pr "head" = Ok hd ->
    getitem hd "ref" = Ok (JStr b) ->
    getitem hd "sha" = Ok sha ->
    getitem hd "repo" = Ok repo ->
    getitem repo "full_name" = Ok fn ->
    get_jira_issue_from_branch_name b = Some k ->
    jira cfg k = IssueFound ->
    exists st,
      snd (jira_github_pr_check hmac jira push cfg req) = [st] /\
      status st = "success" /\
      message st = msg_found b k /\
      fst (jira_github_pr_check hmac jira push cfg req) =
        match push st with
        | None => (BodyOK, 200%Z)
        | Some err => (BodyMessage err, 500%Z)
        end.
Proof.
  intros hmac jira push cfg req payload pr hd b sha repo fn k
         Hc Hj Ht H1 H2 H3 H4 H5 H6 Hk Hf.
  pose proof (outcome_after_head hmac jira cfg req payload pr hd b sha repo fn
                Hc Hj Ht H1 H2 H3 H4 H5 H6) as Ho.
  assert (Hi : is_jira_issue jira cfg k = true) by (unfold is_jira_issue; now rewrite Hf).
  rewrite Hk, Hi in Ho.
  rewrite (handler_after_outcome hmac jira push cfg req _ _ _ Ho) by discriminate.
  eexists; repeat split.
Qed.

Lemma C8_success_gives_200_ok_witness :
  exists st,
    snd (jira_github_pr_check hmac_stub jira_found push_ok cfg_no_secret
           (pr_request "feature_ABC-123-login")) = [st] /\
    status st = "success" /\
    message st = msg_found "feature_ABC-123-login" "ABC-123" /\
    fst (jira_github_pr_check hmac_stub jira_found push_ok cfg_no_secret
           (pr_request "feature_ABC-123-login")) =
      match push_ok st with
      | None => (BodyOK, 200%Z)
      | Some err => (BodyMessage err, 500%Z)
      end.
Proof.
  apply (C8_success_gives_200_ok hmac_stub jira_found push_ok cfg_no_secret
           (pr_request "feature_ABC-123-login") (pr_payload "feature_ABC-123-login")
           (pr_object "feature_ABC-123-login") (pr_head "feature_ABC-123-login")
           "feature_ABC-123-login" (JStr "6dcb09b5") pr_repo (JStr "octo/app") "ABC-123");
    reflexivity.
Defined.

(** C9. The extractor is a function of the branch name, and its result is
    the first match of [findall] in scan order: the key at the leftmost
    position that has one. *)
Theorem C9_first_match_wins :
  forall s,
    get_jira_issue_from_branch_name s =
      option_map string_of_list_ascii (hd_error (findall (list_ascii_of_string s))) /\
    match get_jira_issue_from_branch_name s with
    | Some k =>
        exists i m, key_at s i m /\ k = string_of_list_ascii m /\
          forall i' m', i' < i -> ~ key_at s i' m'
    | None => forall i m, ~ key_at s i m
    end.
Proof.
  intros s. split.
  - unfold get_jira_issue_from_branch_name.
    destruct (findall (list_ascii_of_string s)); reflexivity.
  - apply get_jira_issue_spec.
Qed.

(** C10. The extractor is total: on every string, the empty one included,
    it returns a key or [None], never an error. *)
Theorem C10_extractor_total :
  (forall s, get_jira_issue_from_branch_name s = None \/
             exists k, get_jira_issue_from_branch_name s = Some k) /\
  get_jira_issue_from_branch_name "" = None /\
  get_jira_issue_from_branch_name "hotfix-misc-cleanup" = None.
Proof.
  split; [|split; vm_compute; reflexivity].
  intros s. destruct (get_jira_issue_from_branch_name s); eauto.
Qed.

End Claims.

(* ======================================================================== *)
(** * Further properties of the module *)

Module BranchRefFacts.
Import Extract BranchRef ExtractFacts.

Lemma list_ascii_of_string_app s1 s2 :
  list_ascii_of_string (s1 ++ s2) = list_ascii_of_string s1 ++ list_ascii_of_string s2.
Proof. induction s1 as [|c s1 IH]; simpl; [reflexivity|now rewrite IH]. Qed.

Lemma las_inj s1 s2 : list_ascii_of_string s1 = list_ascii_of_string s2 -> s1 = s2.
Proof.
  intros H. rewrite <- (string_of_list_ascii_of_string s1), H.
  apply string_of_list_ascii_of_string.
Qed.

Lemma strip_prefix_spec p l r : strip_prefix p l = Some r <-> l = p ++ r.
Proof.
  revert l; induction p as [|c p IH]; intros l; simpl.
  - split; intros H; [now inversion H|now subst].
  - destruct l as [|d l]; [split; discriminate|].
    destruct (Ascii.eqb c d) eqn:E.
    + apply Ascii.eqb_eq in E. subst d. rewrite IH. split; [intros ->|intros H; inversion H]; auto.
    + apply Ascii.eqb_neq in E. split; [discriminate|intros H; inversion H; congruence].
Qed.

Lemma dollar_spec r : dollar r = true <-> r = [] \/ r = ["010"%char].
Proof.
  destruct r as [|c [|d r]]; simpl.
  - split; auto.
  - rewrite Ascii.eqb_eq. split; [intros ->; auto|intros [H|H]; inversion H; auto].
  - split; [discriminate|intros [H|H]; inversion H].
Qed.

(** The branch extracted from [refs/heads/b] (optionally followed by one
    final newline) is [b], provided [b] has no newline; no other ref gives a
    branch. *)
Lemma get_branch_name_from_ref_spec git_ref b :
  get_branch_name_from_ref git_ref = Some b <->
  forallb not_newline (list_ascii_of_string b) = true /\
  (git_ref = ("refs/heads/" ++ b)%string \/
   git_ref = ("refs/heads/" ++ b ++ String "010"%char EmptyString)%string).
Proof.
  unfold get_branch_name_from_ref. split.
  - destruct (strip_prefix ref_prefix _) as [rest|] eqn:Hp; [|discriminate].
    apply strip_prefix_spec in Hp.
    unfold greedy. destruct (try_down _ _ _) as [n|] eqn:Ht; [|discriminate].
    intros H. injection H as <-.
    apply try_down_sound in Ht as (j & Hj & Hk).
    destruct (dollar (skipn j rest)) eqn:Hd; simpl in Hk; [|discriminate].
    injection Hk as <-. rewrite Nat.add_0_r.
    apply dollar_spec in Hd.
    rewrite list_ascii_of_string_of_list_ascii. split.
    + apply run_firstn. lia.
    + destruct Hd as [Hd|Hd]; [left|right]; apply las_inj;
        rewrite Hp, !list_ascii_of_string_app, list_ascii_of_string_of_list_ascii;
        rewrite <- (firstn_skipn j rest) at 1; rewrite Hd; simpl;
        rewrite ?app_nil_r; reflexivity.
  - intros [Hn Hr].
    assert (Hex : exists tail, list_ascii_of_string git_ref =
                    ref_prefix ++ list_ascii_of_string b ++ tail /\ dollar tail = true).
    { destruct Hr as [-> | ->]; [exists []|exists ["010"%char]];
        rewrite !list_ascii_of_string_app; simpl; rewrite ?app_nil_r; auto. }
    destruct Hex as (tail & Hrest & Hdt).
    rewrite Hrest.
    replace (strip_prefix ref_prefix (ref_prefix ++ list_ascii_of_string b ++ tail))
      with (Some (list_ascii_of_string b ++ tail)) by (symmetry; now apply strip_prefix_spec).
    unfold greedy.
    rewrite (run_app not_newline _ tail Hn)
      by (apply dollar_spec in Hdt; destruct Hdt as [-> | ->]; reflexivity).
    rewrite Nat.min_r by (rewrite length_app; lia).
    rewrite (try_down_top 0 (List.length (list_ascii_of_string b)) _
               (List.length (list_ascii_of_string b))).
    + rewrite firstn_app, Nat.sub_diag, firstn_all. simpl. rewrite app_nil_r.
      now rewrite string_of_list_ascii_of_string.
    + lia.
    + rewrite skipn_app, skipn_all, Nat.sub_diag. simpl. rewrite Hdt. simpl.
      now rewrite Nat.add_0_r.
Qed.

End BranchRefFacts.

Module HandlerInvariants.
Import Extract Handler HandlerFacts.
Local Open Scope string_scope.

Section Env.
Variable h : list byte -> list byte -> string.
Variable j : config -> string -> jira_outcome.
Variable p : commit_status -> option string.

Lemma check_payload_secret_raise req cfg e :
  check_payload_secret h req cfg = Raise e -> exists m, e = OtherException m.
Proof.
  unfold check_payload_secret.
  destruct (github_webhook_secret cfg); [|discriminate].
  destruct (latin1_encode _); intros H; inversion H; eauto.
Qed.

(** Case analysis over every step of [pr_check_body]. *)
Ltac split_body :=
  repeat (simpl in *;
    match goal with
    | H : check_payload_secret _ _ _ = Raise ?e |- _ =>
        apply check_payload_secret_raise in H as (? & ->)
    | H : getitem _ _ = Raise ?e |- _ => apply getitem_raise in H as (? & ->)
    | H : get_payload_type _ = Raise ?e |- _ =>
        apply get_payload_type_raise in H as (? & ->)
    | |- context [check_payload_secret ?a ?b ?c] =>
        destruct (check_payload_secret a b c) eqn:?
    | |- context [get_json ?r] => destruct (get_json r) eqn:?
    | |- context [get_payload_type ?v] => destruct (get_payload_type v) eqn:?
    | |- context [getitem ?v ?k] => destruct (getitem v k) eqn:?
    | |- context [get_jira_issue_from_branch_name ?b] =>
        destruct (get_jira_issue_from_branch_name b) eqn:?
    | |- context [is_jira_issue ?a ?c ?k] => destruct (is_jira_issue a c k) eqn:?
    | |- context [py_str_eq_opt ?a ?b] => destruct (py_str_eq_opt a b) eqn:?
    | |- context [negb ?x] => is_var x; destruct x
    | |- context [match ?x with _ => _ end] => is_var x; destruct x
    end).

(** What the first [try] leaves behind: the token and callback URL of the
    configuration are never changed; a normal end sets the state
    ["success"] with the success message of an extracted key the tracker
    returned; an exception leaves the state ["failure"], and only a failed
    signature check raises [WebhookNotAuthorizedException]. *)
Lemma pr_check_body_post cfg req :
  match pr_check_body h j cfg req (initial_commit_status cfg) with
  | (r, st) =>
      status_github_token st = github_token cfg /\
      status_callback_url st = callback_url cfg /\
      match r with
      | Ok _ =>
          status st = "success" /\
          exists b k, get_jira_issue_from_branch_name b = Some k /\
            is_jira_issue j cfg k = true /\ message st = msg_found b k
      | Raise e =>
          status st = "failure" /\
          match e with
          | WebhookNotAuthorizedException _ => check_payload_secret h req cfg = Ok false
          | _ => True
          end
      end
  end.
Proof.
  unfold pr_check_body. cbv beta iota delta [bind lift throw modify ret].
  split_body; repeat split; eauto.
Qed.

(** The commit SHA and repository name of the status are [None] or the
    values read from the head of the pull request in the payload. *)
Lemma pr_check_body_target cfg req :
  match pr_check_body h j cfg req (initial_commit_status cfg) with
  | (_, st) =>
      (commit_sha st = JNull \/
       exists payload pr hd, get_json req = inr payload /\
         getitem payload "pull_request" = Ok pr /\ getitem pr "head" = Ok hd /\
         getitem hd "sha" = Ok (commit_sha st)) /\
      (repository_name st = JNull \/
       exists payload pr hd repo, get_json req = inr payload /\
         getitem payload "pull_request" = Ok pr /\ getitem pr "head" = Ok hd /\
         getitem hd "repo" = Ok repo /\ getitem repo "full_name" = Ok (repository_name st))
  end.
Proof.
  unfold pr_check_body. cbv beta iota delta [bind lift throw modify ret].
  split_body; split; (left; reflexivity) || (right; eauto 10).
Qed.

(** The outcome before the push, by kind. *)
Lemma pipeline_outcome_post cfg req :
  match pipeline_outcome h j cfg req with
  | (r, c, st) =>
      status_github_token st = github_token cfg /\
      status_callback_url st = callback_url cfg /\
      ((c = 200%Z /\ r = BodyOK /\ status st = "success" /\
        exists b k, get_jira_issue_from_branch_name b = Some k /\
          is_jira_issue j cfg k = true /\ message st = msg_found b k) \/
       (c = 403%Z /\ check_payload_secret h req cfg = Ok false /\
        status st = "failure" /\ r = BodyMessage (message st)) \/
       ((c = 400%Z \/ c = 404%Z) /\ status st = "failure" /\
        r = BodyMessage (message st)))
  end.
Proof.
  unfold pipeline_outcome.
  pose proof (pr_check_body_post cfg req) as H.
  destruct (pr_check_body h j cfg req (initial_commit_status cfg)) as [[a|e] st].
  - destruct H as (Ht & Hc & Hs & Hm). auto 10.
  - destruct H as (Ht & Hc & Hs & He). simpl. repeat split; auto.
    destruct e; simpl; [right; left|right; right|right; right]; auto 10.
Qed.

(** Where the key of a normal end or of a [NotJiraIssueException] comes
    from: the head branch of the payload. *)
Lemma pr_check_body_cause cfg req :
  match pr_check_body h j cfg req (initial_commit_status cfg) with
  | (Ok _, st) =>
      exists payload b k, check_payload_secret h req cfg = Ok true /\
        get_json req = inr payload /\ branch_ref payload = Ok (JStr b) /\
        get_jira_issue_from_branch_name b = Some k /\
        is_jira_issue j cfg k = true /\ message st = msg_found b k
  | (Raise (NotJiraIssueException m), _) =>
      exists payload b, check_payload_secret h req cfg = Ok true /\
        get_json req = inr payload /\ branch_ref payload = Ok (JStr b) /\
        ((get_jira_issue_from_branch_name b = None /\ m = msg_no_key b) \/
         exists k, get_jira_issue_from_branch_name b = Some k /\
           is_jira_issue j cfg k = false /\ m = msg_not_found b k)
  | _ => True
  end.
Proof.
  unfold pr_check_body. cbv beta iota delta [bind lift throw modify ret].
  split_body; try exact I;
    match goal with
    | Hj : get_json req = inr ?v, Hr : getitem _ "ref" = Ok (JStr ?b) |- _ =>
        exists v, b; unfold branch_ref;
        repeat match goal with
               | H : getitem ?x ?y = _ |- context [getitem ?x ?y] => rewrite H
               end
    end;
    simpl; eauto 10.
Qed.

(** The outcome before the push, with the cause of a 200 or a 404. *)
Lemma pipeline_outcome_cause cfg req :
  match pipeline_outcome h j cfg req with
  | (r, c, st) =>
      (c = 200%Z ->
       exists payload b k, check_payload_secret h req cfg = Ok true /\
         get_json req = inr payload /\ branch_ref payload = Ok (JStr b) /\
         get_jira_issue_from_branch_name b = Some k /\
         is_jira_issue j cfg k = true /\ message st = msg_found b k) /\
      (c = 404%Z ->
       exists payload b, check_payload_secret h req cfg = Ok true /\
         get_json req = inr payload /\ branch_ref payload = Ok (JStr b) /\
         ((get_jira_issue_from_branch_name b = None /\ message st = msg_no_key b) \/
          exists k, get_jira_issue_from_branch_name b = Some k /\
            is_jira_issue j cfg k = false /\ message st = msg_not_found b k))
  end.
Proof.
  unfold pipeline_outcome.
  pose proof (pr_check_body_cause cfg req) as H.
  destruct (pr_check_body h j cfg req (initial_commit_status cfg)) as [[a|[m|m|m]] st];
    simpl; split; intros Hc; try discriminate; auto.
Qed.

(** The response and pushes of the handler, from the outcome before the
    push. *)
Lemma handler_cases cfg req :
  match pipeline_outcome h j cfg req with
  | (r, c, st) =>
      (c = 403%Z /\ jira_github_pr_check h j p cfg req = ((r, c), [])) \/
      (c <> 403%Z /\ jira_github_pr_check h j p cfg req =
         (match p st with
          | None => (r, c)
          | Some err => (BodyMessage err, 500%Z)
          end, [st]))
  end.
Proof.
  destruct (pipeline_outcome h j cfg req) as [[r c] st] eqn:Ho.
  destruct (Z.eq_dec c 403) as [->|Hc].
  - left. split; [reflexivity|]. unfold jira_github_pr_check. now rewrite Ho.
  - right. split; [exact Hc|]. now apply handler_after_outcome.
Qed.

End Env.
End HandlerInvariants.

Module Extras.
Import Extract BranchRef Handler Samples ExtractFacts HandlerFacts
       BranchRefFacts HandlerInvariants.
Local Open Scope string_scope.


(** X1. [get_branch_name_from_ref] returns [b] exactly for the refs
    [refs/heads/b] and [refs/heads/b] followed by one newline, where [b]
    holds no newline; on every other ref it returns [None]. *)
Theorem X1_branch_name_from_ref :
  forall git_ref b,
    get_branch_name_from_ref git_ref = Some b <->
    forallb not_newline (list_ascii_of_string b) = true /\
    (git_ref = ("refs/heads/" ++ b)%string \/
     git_ref = ("refs/heads/" ++ b ++ String "010"%char EmptyString)%string).
Proof. apply get_branch_name_from_ref_spec. Qed.



(** X4. The response code of the handler is always one of 200, 400, 403,
    404 and 500. *)
Theorem X4_response_codes :
  forall hmac jira push cfg req,
    let c := snd (fst (jira_github_pr_check hmac jira push cfg req)) in
    c = 200%Z \/ c = 400%Z \/ c = 403%Z \/ c = 404%Z \/ c = 500%Z.
Proof.
  intros hmac jira push cfg req c. subst c.
  pose proof (pipeline_outcome_post hmac jira cfg req) as Hp.
  pose proof (handler_cases hmac jira push cfg req) as Hh.
  destruct (pipeline_outcome hmac jira cfg req) as [[r c] st].
  destruct Hp as (_ & _ & Hp).
  destruct Hh as [(-> & ->)|(Hc & ->)]; simpl; [tauto|].
  destruct (push st); simpl; [tauto|].
  destruct Hp as [(-> & _)|[(-> & _)|([ -> | -> ] & _)]]; tauto.
Qed.

(** X5. The handler answers 403 exactly when the signature check returns
    false, and it skips the push exactly then. *)
Theorem X5_403_iff_signature_rejected :
  forall hmac jira push cfg req,
    (snd (fst (jira_github_pr_check hmac jira push cfg req)) = 403%Z <->
     check_payload_secret hmac req cfg = Ok false) /\
    (snd (jira_github_pr_check hmac jira push cfg req) = [] <->
     check_payload_secret hmac req cfg = Ok false).
Proof.
  intros hmac jira push cfg req.
  pose proof (pipeline_outcome_post hmac jira cfg req) as Hp.
  pose proof (handler_cases hmac jira push cfg req) as Hh.
  assert (Hf : check_payload_secret hmac req cfg = Ok false ->
               pipeline_outcome hmac jira cfg req =
                 (BodyMessage "webhook secret do not match", 403%Z,
                  set_message "webhook secret do not match" (initial_commit_status cfg)))
    by apply auth_failure_outcome.
  destruct (pipeline_outcome hmac jira cfg req) as [[r c] st] eqn:Ho.
  destruct Hp as (_ & _ & Hp).
  destruct Hh as [(-> & ->)|(Hc & ->)]; simpl.
  - destruct Hp as [(? & _)|[(_ & Hk & _)|([? | ?] & _)]]; try discriminate.
    tauto.
  - split; split; intros H; try discriminate.
    + destruct (push st); simpl in H; [discriminate|]. contradiction.
    + apply Hf in H. injection H as _ Hc' _. contradiction.
    + apply Hf in H. injection H as _ Hc' _. contradiction.
Qed.

(** X6. A response with code 200 has body ["OK"]; it comes from a request
    that passed the signature check and whose head branch yields a key the
    tracker returned, and exactly one status was pushed, without error,
    with state ["success"] and the success message for that branch and key. *)
Theorem X6_200_means_key_found :
  forall hmac jira push cfg req,
    snd (fst (jira_github_pr_check hmac jira push cfg req)) = 200%Z ->
    exists st payload b k,
      jira_github_pr_check hmac jira push cfg req = ((BodyOK, 200%Z), [st]) /\
      push st = None /\
      check_payload_secret hmac req cfg = Ok true /\
      get_json req = inr payload /\ branch_ref payload = Ok (JStr b) /\
      get_jira_issue_from_branch_name b = Some k /\ jira cfg k = IssueFound /\
      status st = "success" /\ message st = msg_found b k.
Proof.
  intros hmac jira push cfg req H200.
  pose proof (pipeline_outcome_post hmac jira cfg req) as Hp.
  pose proof (pipeline_outcome_cause hmac jira cfg req) as Hq.
  pose proof (handler_cases hmac jira push cfg req) as Hh.
  destruct (pipeline_outcome hmac jira cfg req) as [[r c] st].
  destruct Hp as (_ & _ & Hp). destruct Hq as (Hq & _).
  destruct Hh as [(-> & Hj)|(Hc & Hj)]; rewrite Hj in H200 |- *; simpl in H200;
    [discriminate|].
  destruct (push st) eqn:Hpush; simpl in H200; [discriminate|].
  subst c. destruct Hp as [(_ & -> & Hs & _)|[(? & _)|([? | ?] & _)]]; try discriminate.
  destruct (Hq eq_refl) as (payload & b & k & Hc1 & Hj1 & Hb & Hk & Hi & Hm).
  exists st, payload, b, k. repeat split; auto.
  unfold is_jira_issue in Hi. destruct (jira cfg k); congruence.
Qed.

Lemma X6_200_means_key_found_witness :
  snd (fst (jira_github_pr_check hmac_stub jira_found push_ok cfg_no_secret
              (pr_request "ABC-123-login"))) = 200%Z /\
  exists st payload b k,
    jira_github_pr_check hmac_stub jira_found push_ok cfg_no_secret
      (pr_request "ABC-123-login") = ((BodyOK, 200%Z), [st]) /\
    push_ok st = None /\
    check_payload_secret hmac_stub (pr_request "ABC-123-login") cfg_no_secret = Ok true /\
    get_json (pr_request "ABC-123-login") = inr payload /\
    branch_ref payload = Ok (JStr b) /\
    get_jira_issue_from_branch_name b = Some k /\ jira_found cfg_no_secret k = IssueFound /\
    status st = "success" /\ message st = msg_found b k.
Proof.
  split; [vm_compute; reflexivity|].
  apply X6_200_means_key_found. vm_compute. reflexivity.
Defined.

(** X7. A response with code 400 or 404 comes with exactly one pushed
    status, pushed without error, whose state is ["failure"] and whose
    message is the message of the response body. *)
Theorem X7_400_404_push_failure_status :
  forall hmac jira push cfg req c m,
    fst (jira_github_pr_check hmac jira push cfg req) = (BodyMessage m, c) ->
    c = 400%Z \/ c = 404%Z ->
    exists st,
      snd (jira_github_pr_check hmac jira push cfg req) = [st] /\
      push st = None /\ status st = "failure" /\ message st = m.
Proof.
  intros hmac jira push cfg req c m Hr Hc.
  pose proof (pipeline_outcome_post hmac jira cfg req) as Hp.
  pose proof (handler_cases hmac jira push cfg req) as Hh.
  destruct (pipeline_outcome hmac jira cfg req) as [[r c'] st].
  destruct Hp as (_ & _ & Hp).
  destruct Hh as [(-> & Hj)|(Hc' & Hj)]; rewrite Hj in Hr |- *; simpl in Hr.
  - injection Hr as _ <-. destruct Hc; discriminate.
  - destruct (push st) eqn:Hpush.
    + injection Hr as _ <-. destruct Hc; discriminate.
    + injection Hr as -> ->. exists st. split; [reflexivity|]. split; [exact Hpush|].
      destruct Hp as [(-> & _)|[(-> & _)|(_ & Hs & Hb)]];
        [destruct Hc; discriminate|contradiction|].
      injection Hb as Hb. auto.
Qed.

Lemma X7_400_404_push_failure_status_witness :
  fst (jira_github_pr_check hmac_stub jira_found push_ok cfg_no_secret push_request) =
    (BodyMessage "this callback only manages PR webhook. Fix the webhook settings.", 400%Z) /\
  exists st,
    snd (jira_github_pr_check hmac_stub jira_found push_ok cfg_no_secret push_request) = [st] /\
    push_ok st = None /\ status st = "failure" /\
    message st = "this callback only manages PR webhook. Fix the webhook settings.".
Proof.
  split; [vm_compute; reflexivity|].
  eapply X7_400_404_push_failure_status; [vm_compute; reflexivity|left; reflexivity].
Defined.

(** X8. A 404 response has one of the two not-found messages: the head
    branch of the payload yields no key, or it yields a key the tracker did
    not return; the request passed the signature check. *)
Theorem X8_404_causes :
  forall hmac jira push cfg req m,
    fst (jira_github_pr_check hmac jira push cfg req) = (BodyMessage m, 404%Z) ->
    exists payload b,
      check_payload_secret hmac req cfg = Ok true /\
      get_json req = inr payload /\ branch_ref payload = Ok (JStr b) /\
      ((get_jira_issue_from_branch_name b = None /\ m = msg_no_key b) \/
       exists k, get_jira_issue_from_branch_name b = Some k /\
         is_jira_issue jira cfg k = false /\ m = msg_not_found b k).
Proof.
  intros hmac jira push cfg req m Hr.
  pose proof (pipeline_outcome_post hmac jira cfg req) as Hp.
  pose proof (pipeline_outcome_cause hmac jira cfg req) as Hq.
  pose proof (handler_cases hmac jira push cfg req) as Hh.
  destruct (pipeline_outcome hmac jira cfg req) as [[r c] st].
  destruct Hp as (_ & _ & Hp). destruct Hq as (_ & Hq).
  destruct Hh as [(-> & Hj)|(Hc & Hj)]; rewrite Hj in Hr; simpl in Hr;
    [injection Hr as _ Hr; discriminate|].
  destruct (push st); [injection Hr as _ Hr; discriminate|].
  injection Hr as Hr ->.
  destruct Hp as [(? & _)|[(? & _)|(_ & _ & Hb)]]; try discriminate.
  rewrite Hb in Hr. injection Hr as <-. apply Hq. reflexivity.
Qed.

Lemma X8_404_causes_witness :
  fst (jira_github_pr_check hmac_stub jira_missing push_ok cfg_no_secret
         (pr_request "ABC-123-login")) =
    (BodyMessage (msg_not_found "ABC-123-login" "ABC-123"), 404%Z) /\
  exists payload b,
    check_payload_secret hmac_stub (pr_request "ABC-123-login") cfg_no_secret = Ok true /\
    get_json (pr_request "ABC-123-login") = inr payload /\
    branch_ref payload = Ok (JStr b) /\
    ((get_jira_issue_from_branch_name b = None /\
      msg_not_found "ABC-123-login" "ABC-123" = msg_no_key b) \/
     exists k, get_jira_issue_from_branch_name b = Some k /\
       is_jira_issue jira_missing cfg_no_secret k = false /\
       msg_not_found "ABC-123-login" "ABC-123" = msg_not_found b k).
Proof.
  split; [vm_compute; reflexivity|].
  apply (X8_404_causes hmac_stub jira_missing push_ok cfg_no_secret
           (pr_request "ABC-123-login")).
  vm_compute. reflexivity.
Defined.

(** X9. The handler answers 500 exactly when the push was attempted and
    raised; the body is then the message of the push error. *)
Theorem X9_500_iff_push_raised :
  forall hmac jira push cfg req,
    snd (fst (jira_github_pr_check hmac jira push cfg req)) = 500%Z <->
    exists st err,
      snd (jira_github_pr_check hmac jira push cfg req) = [st] /\
      push st = Some err /\
      fst (jira_github_pr_check hmac jira push cfg req) = (BodyMessage err, 500%Z).
Proof.
  intros hmac jira push cfg req.
  pose proof (pipeline_outcome_post hmac jira cfg req) as Hp.
  pose proof (handler_cases hmac jira push cfg req) as Hh.
  destruct (pipeline_outcome hmac jira cfg req) as [[r c] st].
  destruct Hp as (_ & _ & Hp).
  destruct Hh as [(-> & Hj)|(Hc & Hj)]; rewrite Hj; simpl.
  - split; [discriminate|]. intros (st' & err & H & _). discriminate.
  - destruct (push st) as [err|] eqn:Hpush; simpl.
    + split; [intros _; exists st, err; auto|reflexivity].
    + split; [|intros (st' & err & H & Hps & _); injection H as ->; congruence].
      intros ->.
      destruct Hp as [(? & _)|[(? & _)|([? | ?] & _)]]; discriminate.
Qed.

(** X10. Every status handed to the push carries the GitHub token and the
    callback URL of the configuration, and its state is ["success"] or
    ["failure"]. *)
Theorem X10_pushed_status_fields :
  forall hmac jira push cfg req st,
    In st (snd (jira_github_pr_check hmac jira push cfg req)) ->
    status_github_token st = github_token cfg /\
    status_callback_url st = callback_url cfg /\
    (status st = "success" \/ status st = "failure").
Proof.
  intros hmac jira push cfg req st Hin.
  pose proof (pipeline_outcome_post hmac jira cfg req) as Hp.
  pose proof (handler_cases hmac jira push cfg req) as Hh.
  destruct (pipeline_outcome hmac jira cfg req) as [[r c] st'].
  destruct Hp as (Ht & Hcb & Hp).
  destruct Hh as [(_ & Hj)|(_ & Hj)]; rewrite Hj in Hin; simpl in Hin;
    [contradiction|].
  destruct Hin as [<-|[]]. split; [exact Ht|split; [exact Hcb|]].
  destruct Hp as [(_ & _ & Hs & _)|[(_ & _ & Hs & _)|(_ & Hs & _)]]; auto.
Qed.

Lemma X10_pushed_status_fields_witness :
  exists st,
    In st (snd (jira_github_pr_check hmac_stub jira_found push_ok cfg_no_secret
                  (pr_request "ABC-123-login"))) /\
    status_github_token st = github_token cfg_no_secret /\
    status_callback_url st = callback_url cfg_no_secret /\
    (status st = "success" \/ status st = "failure").
Proof.
  exists (snd (pipeline_outcome hmac_stub jira_found cfg_no_secret
                (pr_request "ABC-123-login"))).
  split; [vm_compute; left; reflexivity|].
  apply (X10_pushed_status_fields hmac_stub jira_found push_ok cfg_no_secret
           (pr_request "ABC-123-login")).
  vm_compute. left. reflexivity.
Defined.

(** X11. The commit SHA of a pushed status is [None] or
    [payload["pull_request"]["head"]["sha"]], and its repository name is
    [None] or [payload["pull_request"]["head"]["repo"]["full_name"]]. *)
Theorem X11_pushed_status_target :
  forall hmac jira push cfg req st,
    In st (snd (jira_github_pr_check hmac jira push cfg req)) ->
    (commit_sha st = JNull \/
     exists payload pr hd, get_json req = inr payload /\
       getitem payload "pull_request" = Ok pr /\ getitem pr "head" = Ok hd /\
       getitem hd "sha" = Ok (commit_sha st)) /\
    (repository_name st = JNull \/
     exists payload pr hd repo, get_json req = inr payload /\
       getitem payload "pull_request" = Ok pr /\ getitem pr "head" = Ok hd /\
       getitem hd "repo" = Ok repo /\ getitem repo "full_name" = Ok (repository_name st)).
Proof.
  intros hmac jira push cfg req st Hin.
  pose proof (pr_check_body_target hmac jira cfg req) as Ht.
  pose proof (handler_cases hmac jira push cfg req) as Hh.
  unfold pipeline_outcome in Hh.
  destruct (pr_check_body hmac jira cfg req (initial_commit_status cfg)) as [[a|e] st'];
    (destruct Hh as [(_ & Hj)|(_ & Hj)]; rewrite Hj in Hin; simpl in Hin;
     [contradiction|]);
    destruct Hin as [<-|[]]; exact Ht.
Qed.

Lemma X11_pushed_status_target_witness :
  exists st,
    In st (snd (jira_github_pr_check hmac_stub jira_found push_ok cfg_no_secret
                  (pr_request "ABC-123-login"))) /\
    (commit_sha st = JNull \/
     exists payload pr hd, get_json (pr_request "ABC-123-login") = inr payload /\
       getitem payload "pull_request" = Ok pr /\ getitem pr "head" = Ok hd /\
       getitem hd "sha" = Ok (commit_sha st)) /\
    (repository_name st = JNull \/
     exists payload pr hd repo, get_json (pr_request "ABC-123-login") = inr payload /\
       getitem payload "pull_request" = Ok pr /\ getitem pr "head" = Ok hd /\
       getitem hd "repo" = Ok repo /\ getitem repo "full_name" = Ok (repository_name st)).
Proof.
  exists (snd (pipeline_outcome hmac_stub jira_found cfg_no_secret
                (pr_request "ABC-123-login"))).
  split; [vm_compute; left; reflexivity|].
  apply (X11_pushed_status_target hmac_stub jira_found push_ok cfg_no_secret
           (pr_request "ABC-123-login")).
  vm_compute. left. reflexivity.
Defined.

Lemma check_payload_secret_no_secret hmac req cfg :
  github_webhook_secret cfg = None -> check_payload_secret hmac req cfg = Ok true.
Proof. intros H. unfold check_payload_secret. now rewrite H. Qed.

(** X12. Without a configured webhook secret, the signature header and the
    raw body bytes play no part: two requests with the same decoded JSON get
    the same response and the same pushes. *)
Theorem X12_no_secret_ignores_signature :
  forall hmac jira push cfg req1 req2,
    github_webhook_secret cfg = None ->
    get_json req1 = get_json req2 ->
    jira_github_pr_check hmac jira push cfg req1 = jira_github_pr_check hmac jira push cfg req2.
Proof.
  intros hmac jira push cfg req1 req2 Hs Hj.
  unfold jira_github_pr_check, pipeline_outcome, pr_check_body.
  cbv beta iota delta [bind lift throw modify ret].
  rewrite !(check_payload_secret_no_secret hmac _ cfg Hs), Hj. reflexivity.
Qed.

Lemma X12_no_secret_ignores_signature_witness :
  jira_github_pr_check hmac_stub jira_found push_ok cfg_no_secret
    (pr_request "ABC-123-login") =
  jira_github_pr_check hmac_stub jira_found push_ok cfg_no_secret
    {| x_hub_signature_256 := Some "sha256=00"; get_data := [x41];
       get_json := get_json (pr_request "ABC-123-login") |}.
Proof. apply X12_no_secret_ignores_signature; reflexivity. Defined.

(** An extracted key is never the empty string. *)
Lemma extracted_key_nonempty b :
  get_jira_issue_from_branch_name b <> Some EmptyString.
Proof.
  intros Hk. pose proof (get_jira_issue_spec b) as H. rewrite Hk in H.
  destruct H as (i & m & (_ & (c & letters & digits & -> & _) & _) & Hs & _).
  discriminate Hs.
Qed.

(** X13. The tracker is consulted only about keys the extractor returned:
    two trackers that agree on those keys give the same response and the
    same pushes. *)
Theorem X13_tracker_only_on_extracted_keys :
  forall hmac jira1 jira2 push cfg req,
    (forall b k, get_jira_issue_from_branch_name b = Some k ->
       is_jira_issue jira1 cfg k = is_jira_issue jira2 cfg k) ->
    jira_github_pr_check hmac jira1 push cfg req = jira_github_pr_check hmac jira2 push cfg req.
Proof.
  intros hmac jira1 jira2 push cfg req Hagree.
  assert (Ho : pipeline_outcome hmac jira1 cfg req = pipeline_outcome hmac jira2 cfg req).
  { unfold pipeline_outcome, pr_check_body.
    cbv beta iota delta [bind lift throw modify ret].
    destruct (check_payload_secret hmac req cfg) as [[|]|e]; simpl; try reflexivity.
    destruct (get_json req) as [m|payload]; simpl; try reflexivity.
    destruct (get_payload_type payload) as [t|e]; simpl; try reflexivity.
    destruct (py_str_eq_opt "pull_request" t); simpl; try reflexivity.
    destruct (getitem payload "pull_request") as [pr|e]; simpl; try reflexivity.
    destruct (getitem pr "head") as [hd|e]; simpl; try reflexivity.
    destruct (getitem hd "ref") as [br|e]; simpl; try reflexivity.
    destruct br; try reflexivity;
      destruct (getitem hd "sha") as [sha|e]; simpl; try reflexivity;
      destruct (getitem hd "repo") as [repo|e]; simpl; try reflexivity;
      destruct (getitem repo "full_name") as [fn|e]; simpl; try reflexivity.
    destruct (get_jira_issue_from_branch_name s) as [k|] eqn:Hk; [|reflexivity].
    rewrite (Hagree s k Hk). reflexivity. }
  unfold jira_github_pr_check. now rewrite Ho.
Qed.

Lemma X13_tracker_only_on_extracted_keys_witness :
  jira_github_pr_check hmac_stub jira_found push_ok cfg_no_secret
    (pr_request "feature-login") =
  jira_github_pr_check hmac_stub
    (fun _ k => if String.eqb k EmptyString then IssueRaised "empty issue id" else IssueFound)
    push_ok cfg_no_secret (pr_request "feature-login").
Proof.
  apply X13_tracker_only_on_extracted_keys.
  intros b k Hk. unfold is_jira_issue, jira_found.
  destruct (String.eqb_spec k EmptyString) as [->|]; [|reflexivity].
  exfalso. exact (extracted_key_nonempty b Hk).
Defined.

(** X14. A branch name that is exactly one issue key is returned whole. *)
Theorem X14_whole_key_returned :
  forall m, key_shape m ->
    get_jira_issue_from_branch_name (string_of_list_ascii m) = Some (string_of_list_ascii m).
Proof.
  intros m Hm.
  set (s := string_of_list_ascii m).
  assert (H0 : key_at s 0 m).
  { unfold key_at, s. rewrite list_ascii_of_string_of_list_ascii. simpl.
    split; [now left|split; [exact Hm|]]. exists []. split; [now rewrite app_nil_r|now left]. }
  pose proof (get_jira_issue_spec s) as H.
  destruct (get_jira_issue_from_branch_name s) as [k|]; [|exfalso; exact (H 0 m H0)].
  destruct H as (i & m' & Hk & -> & Hleft).
  destruct i as [|i]; [|exfalso; exact (Hleft 0 m ltac:(lia) H0)].
  unfold key_at in H0, Hk. simpl in H0, Hk.
  pose proof (match_at_complete _ _ _ H0) as E0.
  pose proof (match_at_complete _ _ _ Hk) as E1.
  rewrite E0 in E1. injection E1 as Hlen.
  destruct H0 as (_ & _ & r0 & Hr0 & _). destruct Hk as (_ & _ & r1 & Hr1 & _).
  assert (Hmm : m = m').
  { assert (Hf : forall a b : list ascii, firstn (List.length a) (a ++ b) = a).
    { intros a b. rewrite firstn_app, Nat.sub_diag, firstn_all. simpl. apply app_nil_r. }
    rewrite <- (Hf m r0), <- (Hf m' r1), Hlen.
    rewrite <- Hr0, <- Hr1. reflexivity. }
  now subst m'.
Qed.

Lemma X14_whole_key_returned_witness :
  key_shape (list_ascii_of_string "ABC-123") /\
  get_jira_issue_from_branch_name (string_of_list_ascii (list_ascii_of_string "ABC-123")) =
    Some (string_of_list_ascii (list_ascii_of_string "ABC-123")).
Proof.
  assert (Hs : key_shape (list_ascii_of_string "ABC-123")).
  { exists "A"%char, ["B"; "C"]%char, ["1"; "2"; "3"]%char.
    repeat split; try reflexivity; simpl; try lia. discriminate. }
  split; [exact Hs|]. apply X14_whole_key_returned. exact Hs.
Defined.

(** X15. An authenticated request whose body [request.get_json()] cannot
    decode gets 400 with the decoding error message; the initial commit
    status, with that message, is pushed. *)
Theorem X15_undecodable_body_gives_400 :
  forall hmac jira push cfg req m,
    check_payload_secret hmac req cfg = Ok true ->
    get_json req = inl m ->
    jira_github_pr_check hmac jira push cfg req =
      (match push (set_message m (initial_commit_status cfg)) with
       | None => (BodyMessage m, 400%Z)
       | Some err => (BodyMessage err, 500%Z)
       end, [set_message m (initial_commit_status cfg)]).
Proof.
  intros hmac jira push cfg req m Hc Hm.
  apply handler_after_outcome; [|discriminate].
  unfold pipeline_outcome, pr_check_body. cbv beta iota delta [bind lift throw modify ret].
  rewrite Hc. simpl. rewrite Hm. reflexivity.
Qed.

Lemma X15_undecodable_body_gives_400_witness :
  jira_github_pr_check hmac_stub jira_found push_ok cfg_no_secret bad_json_request =
    (match push_ok (set_message "400 Bad Request: Failed to decode JSON object"
                      (initial_commit_status cfg_no_secret)) with
     | None => (BodyMessage "400 Bad Request: Failed to decode JSON object", 400%Z)
     | Some err => (BodyMessage err, 500%Z)
     end, [set_message "400 Bad Request: Failed to decode JSON object"
             (initial_commit_status cfg_no_secret)]).
Proof. apply X15_undecodable_body_gives_400; reflexivity. Defined.

(** X16. An authenticated request whose payload is classified as anything
    other than a pull request (a push, or no known type) gets 400 with the
    message that the callback only manages pull requests; the initial commit
    status, with that message, is pushed. *)
Theorem X16_not_a_pull_request_gives_400 :
  forall hmac jira push cfg req v t,
    check_payload_secret hmac req cfg = Ok true ->
    get_json req = inr v ->
    get_payload_type v = Ok t ->
    t <> Some "pull_request" ->
    let m := "this callback only manages PR webhook. Fix the webhook settings." in
    jira_github_pr_check hmac jira push cfg req =
      (match push (set_message m (initial_commit_status cfg)) with
       | None => (BodyMessage m, 400%Z)
       | Some err => (BodyMessage err, 500%Z)
       end, [set_message m (initial_commit_status cfg)]).
Proof.
  intros hmac jira push cfg req v t Hc Hj Ht Hn m.
  apply handler_after_outcome; [|discriminate].
  unfold pipeline_outcome, pr_check_body. cbv beta iota delta [bind lift throw modify ret].
  rewrite Hc. simpl. rewrite Hj. simpl. rewrite Ht. simpl.
  assert (Hf : py_str_eq_opt "pull_request" t = false).
  { destruct t as [t|]; [|reflexivity]. unfold py_str_eq_opt.
    destruct (String.eqb_spec "pull_request" t); [subst; contradiction|reflexivity]. }
  rewrite Hf. reflexivity.
Qed.

Lemma X16_not_a_pull_request_gives_400_witness :
  jira_github_pr_check hmac_stub jira_found push_ok cfg_no_secret push_request =
    (match push_ok (set_message "this callback only manages PR webhook. Fix the webhook settings."
                      (initial_commit_status cfg_no_secret)) with
     | None => (BodyMessage "this callback only manages PR webhook. Fix the webhook settings.", 400%Z)
     | Some err => (BodyMessage err, 500%Z)
     end, [set_message "this callback only manages PR webhook. Fix the webhook settings."
             (initial_commit_status cfg_no_secret)]).
Proof.
  apply (X16_not_a_pull_request_gives_400 hmac_stub jira_found push_ok cfg_no_secret
           push_request (JObj [("ref", JStr "refs/heads/main"); ("pusher", JObj [])])
           (Some "push")); try reflexivity.
  discriminate.
Defined.

Ltac take_state :=
  match goal with
  | |- exists st, (_, _, ?s) = _ /\ _ => exists s; repeat split
  end.

(** X17. An authenticated request whose decoded JSON is not a dict (a
    list, a string, a number, a boolean or [None]) gets 400, and the pushed
    status is a ["failure"] with no commit SHA and no repository name. *)
Theorem X17_non_dict_payload_gives_400 :
  forall hmac jira push cfg req v,
    check_payload_secret hmac req cfg = Ok true ->
    get_json req = inr v ->
    (forall kvs, v <> JObj kvs) ->
    exists st,
      jira_github_pr_check hmac jira push cfg req =
        (match push st with
         | None => (BodyMessage (message st), 400%Z)
         | Some err => (BodyMessage err, 500%Z)
         end, [st]) /\
      status st = "failure" /\ commit_sha st = JNull /\ repository_name st = JNull.
Proof.
  intros hmac jira push cfg req v Hc Hj Hv.
  assert (Ho : exists st, pipeline_outcome hmac jira cfg req =
                 (BodyMessage (message st), 400%Z, st) /\
                 status st = "failure" /\ commit_sha st = JNull /\ repository_name st = JNull).
  { unfold pipeline_outcome, pr_check_body. cbv beta iota delta [bind lift throw modify ret].
    rewrite Hc. simpl. rewrite Hj. simpl.
    destruct (get_payload_type v) as [t|e] eqn:Ht; simpl.
    - destruct (py_str_eq_opt "pull_request" t); simpl.
      + destruct v; [ .. | exfalso; exact (Hv kvs eq_refl)]; simpl; take_state.
      + take_state.
    - apply get_payload_type_raise in Ht as (m & ->). simpl. take_state. }
  destruct Ho as (st & Ho & Hs & Hsha & Hrepo).
  exists st. split; [|auto].
  apply (handler_after_outcome hmac jira push cfg req _ _ _ Ho). discriminate.
Qed.

Lemma X17_non_dict_payload_gives_400_witness :
  exists st,
    jira_github_pr_check hmac_stub jira_found push_ok cfg_no_secret
      {| x_hub_signature_256 := None; get_data := [];
         get_json := inr (JStr "pull_request") |} =
      (match push_ok st with
       | None => (BodyMessage (message st), 400%Z)
       | Some err => (BodyMessage err, 500%Z)
       end, [st]) /\
    status st = "failure" /\ commit_sha st = JNull /\ repository_name st = JNull.
Proof.
  apply (X17_non_dict_payload_gives_400 hmac_stub jira_found push_ok cfg_no_secret
           {| x_hub_signature_256 := None; get_data := [];
              get_json := inr (JStr "pull_request") |} (JStr "pull_request"));
    try reflexivity.
  intros kvs. discriminate.
Defined.

End Extras.
